(** * HireIndex: the resume-analysis pipeline

    A shallow embedding of [server/gemini.ts] (the classifier
    [isResumeDocument], the normaliser [fillSectionDefaults] and the analyzer
    [analyzeResumeWithGemini]) and of two routes of [server/routes.ts]
    ([POST /api/resume/analyze] and [GET /api/resume/analysis/:id]),
    followed by the properties the specification states about them and by
    further properties read off the code.

    Conventions.
    - A JavaScript string is a [string]; its characters are read as code
      units below 256 (Latin-1), which is where [trim], [toLowerCase] and the
      regular expressions of the source are defined here.
    - A JavaScript value coming from JSON is a [json]; [undefined] is [None]
      in an [option json].  Numbers are carried as integers; the code only
      copies them and tests them for zero.
    - Exceptions are explicit: a computation is an [M A], a log of the
      requests sent to the external service together with either a value or
      a thrown exception.
    - Platform functions ([crypto]'s SHA-256, [JSON.parse]) and the
      environment variable are variables of the sections; the collaborators
      of a request (the HTTP client, the text extraction, the clock, the
      store) are the fields of a [World].
    - The upload middleware (multer and [isValidFileType], which lives in a
      module outside this development) runs before the handler; the handler
      is modelled from [req.file] on.  The serverless handler of
      [api/resume/analyze.ts] repeats the body of the POST route. *)

From Stdlib Require Import ZArith NArith List Bool Ascii String Lia.
From Stdlib Require Import DecimalString DecimalNat.

#[local] Set Warnings "-register-all".

Import ListNotations.

Open Scope string_scope.

(* ================================================================== *)
(** * JavaScript strings *)

Module JsString.

Definition LF : string := String (ascii_of_nat 10) "".

(** WhiteSpace and LineTerminator code units below 256: TAB, LF, VT, FF,
    CR, SP and NBSP.  This is the set [trim] removes and [\s] matches. *)
Definition is_ws (c : ascii) : bool :=
  let n := N_of_ascii c in
  ((9 <=? n) && (n <=? 13) || (n =? 32) || (n =? 160))%N.

Fixpoint trimStart (s : string) : string :=
  match s with
  | String c r => if is_ws c then trimStart r else s
  | EmptyString => EmptyString
  end.

Fixpoint trimEnd (s : string) : string :=
  match s with
  | String c r =>
      match trimEnd r with
      | EmptyString => if is_ws c then EmptyString else String c EmptyString
      | r' => String c r'
      end
  | EmptyString => EmptyString
  end.

Definition trim (s : string) : string := trimEnd (trimStart s).

Definition lower_char (c : ascii) : ascii :=
  let n := N_of_ascii c in
  if ((65 <=? n) && (n <=? 90)
      || (192 <=? n) && (n <=? 222) && negb (n =? 215))%N
  then ascii_of_N (n + 32) else c.

Fixpoint toLowerCase (s : string) : string :=
  match s with
  | String c r => String (lower_char c) (toLowerCase r)
  | EmptyString => EmptyString
  end.

(** [s.startsWith(p)] *)
Definition startsWith (s p : string) : bool := prefix p s.

(** [s] without its first [n] characters. *)
Fixpoint drop (n : nat) (s : string) : string :=
  match n, s with
  | S n', String _ r => drop n' r
  | _, _ => s
  end.

(** [s.replace(/^```json\s*/i, '')] *)
Definition strip_json_fence (s : string) : string :=
  if prefix "```json" (toLowerCase (substring 0 7 s))
  then trimStart (drop 7 s) else s.

(** [s.replace(/^```/, '')] *)
Definition strip_fence_start (s : string) : string :=
  if prefix "```" s then drop 3 s else s.

(** [s.replace(/```$/, '')]: without the [m] flag, [$] is the end of the
    input. *)
Fixpoint strip_fence_end (s : string) : string :=
  match s with
  | String c r => if s =? "```" then EmptyString else String c (strip_fence_end r)
  | EmptyString => EmptyString
  end.


(** A string is falsy exactly when it is empty. *)
Definition nonempty (s : string) : bool := negb (s =? "").

Definition of_nat (n : nat) : string :=
  NilEmpty.string_of_uint (Nat.to_uint n).

Definition of_Z (z : Z) : string :=
  NilEmpty.string_of_int (Z.to_int z).

End JsString.

(* ================================================================== *)
(** * JSON values and objects *)

Inductive json : Type :=
| JNull
| JBool (b : bool)
| JNum (n : Z)
| JStr (s : string)
| JArr (items : list json)
| JObj (fields : list (string * json)).

Module Js.

(** ToBoolean *)
Definition truthy (v : json) : bool :=
  match v with
  | JNull => false
  | JBool b => b
  | JNum n => negb (n =? 0)%Z
  | JStr s => JsString.nonempty s
  | JArr _ | JObj _ => true
  end.

(** [a || b], where [a] may be [undefined]. *)
Definition or (a : option json) (b : json) : json :=
  match a with
  | Some v => if truthy v then v else b
  | None => b
  end.

Fixpoint assoc (k : string) (fs : list (string * json)) : option json :=
  match fs with
  | (k', v) :: r => if k =? k' then Some v else assoc k r
  | [] => None
  end.

(** [o[k] = v]: an existing property keeps its place, a new one goes
    last. *)
Fixpoint set (k : string) (v : json) (fs : list (string * json))
  : list (string * json) :=
  match fs with
  | (k', v') :: r => if k =? k' then (k, v) :: r else (k', v') :: set k v r
  | [] => [(k, v)]
  end.

Fixpoint indexed {A} (f : A -> json) (i : nat) (l : list A)
  : list (string * json) :=
  match l with
  | x :: r => (JsString.of_nat i, f x) :: indexed f (S i) r
  | [] => []
  end.

Definition chars (s : string) : list ascii := list_ascii_of_string s.

(** The own enumerable properties of a value, which is what an object
    spread copies: the fields of an object, the elements of an array and
    the characters of a string under their indices, nothing for a number,
    a boolean or [null]. *)
Definition own_entries (v : json) : list (string * json) :=
  match v with
  | JObj fs => fs
  | JArr l => indexed (fun x => x) 0 l
  | JStr s => indexed (fun c => JStr (String c "")) 0 (chars s)
  | _ => []
  end.

(** [v.k] and [v[k]] at a value that is neither [null] nor [undefined].
    The source only reads the names [candidates], [content], [parts],
    [text], [feedback], the five section names, [improvementSuggestions]
    and the index [0]; none of them is inherited from a prototype. *)
Definition prop (v : json) (k : string) : option json :=
  assoc k (own_entries v).

(** [v?.k] and [v?.[k]] *)
Definition opt_prop (v : option json) (k : string) : option json :=
  match v with
  | None | Some JNull => None
  | Some x => prop x k
  end.

Definition has_key (k : string) (fs : list (string * json)) : bool :=
  match assoc k fs with Some _ => true | None => false end.

(** [{ ...fs, ...v }]: a property of [fs] that [v] also has takes the
    value it has in [v] and keeps its place; the other properties of [v]
    follow in their order. *)
Definition spread (v : json) (fs : list (string * json))
  : list (string * json) :=
  (map (fun kv => (fst kv,
                   match assoc (fst kv) (own_entries v) with
                   | Some x => x
                   | None => snd kv
                   end)) fs
   ++ filter (fun kv => negb (has_key (fst kv) fs)) (own_entries v))%list.

End Js.

(* ================================================================== *)
(** * Exceptions and the log of external calls *)

(** What a [catch] clause can see of the thrown value: whether it is an
    [Error] (and then its [message]) or something else. *)
Inductive exn : Type :=
| ErrorObj (message : string)
| OtherValue.

Inductive outcome (A : Type) : Type :=
| Ret (a : A)
| Throw (e : exn).
Arguments Ret {A} a.
Arguments Throw {A} e.

(** A computation: the bodies of the requests it sent to the external
    service, in order, and how it ended. *)
Definition M (A : Type) : Type := (list json * outcome A)%type.

Definition ret {A} (a : A) : M A := ([], Ret a).
Definition throw {A} (e : exn) : M A := ([], Throw e).
Definition lift {A} (o : outcome A) : M A := ([], o).

Definition bind {A B} (m : M A) (k : A -> M B) : M B :=
  match m with
  | (l, Ret a) => let (l', r) := k a in ((l ++ l')%list, r)
  | (l, Throw e) => (l, Throw e)
  end.

(** [try { m } catch (e) { h e }] *)
Definition try_catch {A} (m : M A) (h : exn -> M A) : M A :=
  match m with
  | (l, Throw e) => let (l', r) := h e in ((l ++ l')%list, r)
  | _ => m
  end.

Definition calls {A} (m : M A) : list json := fst m.
Definition result {A} (m : M A) : outcome A := snd m.

Notation "x <- m ;; k" := (bind m (fun x => k))
  (at level 61, m at next level, right associativity).

(** [error instanceof Error ? error.message : dflt] *)
Definition message_or (e : exn) (dflt : string) : string :=
  match e with
  | ErrorObj m => m
  | OtherValue => dflt
  end.

(* ================================================================== *)
(** * The collaborators of one request *)

(** What [await fetch(GEMINI_API_URL, ...)] gives: a rejection (network
    error, or the abort after [GEMINI_TIMEOUT_MS]) or a response with its
    [ok] flag, its [status] and what [response.json()] gives. *)
Inductive FetchResult : Type :=
| FetchRejects (e : exn)
| FetchResponse (ok : bool) (status : Z) (json_body : outcome json).

(** The uploaded file as multer hands it over. *)
Record File : Type := {
  originalname : string;
  mimetype : string;
  buffer : list Byte.byte
}.

Record World : Type := {
  fetch : json -> FetchResult;
  extractTextFromDocument : list Byte.byte -> string -> outcome string;
  Date_now : Z;
  Date_toISOString : string;
  getResumeAnalysis : Z -> outcome (option json)
}.

Record Response : Type := {
  status : Z;
  body : json
}.

(** [res.status(code).json({ message })] *)
Definition message_response (code : Z) (m : string) : Response :=
  {| status := code; body := JObj [("message", JStr m)] |}.

(** The result shape of [ResumeAnalysisResult], as the object literals of
    the source spell it: six scores, the feedback record, the suggestions. *)
Definition analysis_literal (scores : Z)
  (keywords experience skills education formatting : string)
  (suggestions : list string) : list (string * json) :=
  [ ("overallScore", JNum scores);
    ("keywordsScore", JNum scores);
    ("experienceScore", JNum scores);
    ("skillsScore", JNum scores);
    ("educationScore", JNum scores);
    ("formattingScore", JNum scores);
    ("feedback", JObj [ ("keywords", JStr keywords);
                        ("experience", JStr experience);
                        ("skills", JStr skills);
                        ("education", JStr education);
                        ("formatting", JStr formatting) ]);
    ("improvementSuggestions", JArr (map JStr suggestions)) ].

Definition score_keys : list string :=
  [ "overallScore"; "keywordsScore"; "experienceScore";
    "skillsScore"; "educationScore"; "formattingScore" ].

Definition feedback_keys : list string :=
  [ "keywords"; "experience"; "skills"; "education"; "formatting" ].

(* ================================================================== *)
(** * server/gemini.ts *)

Section Gemini.

(** [JSON.parse]; [None] is the [SyntaxError]. *)
Variable JSON_parse : string -> option json.
(** [process.env.GEMINI_API_KEY] *)
Variable env_GEMINI_API_KEY : option string.

Definition KEY_PLACEHOLDER : string := "your-gemini-api-key-here".

(** [process.env.GEMINI_API_KEY || "your-gemini-api-key-here"] *)
Definition GEMINI_API_KEY : string :=
  match env_GEMINI_API_KEY with
  | Some k => if JsString.nonempty k then k else KEY_PLACEHOLDER
  | None => KEY_PLACEHOLDER
  end.

(** [!GEMINI_API_KEY || GEMINI_API_KEY === "your-gemini-api-key-here"] *)
Definition key_missing : bool :=
  negb (JsString.nonempty GEMINI_API_KEY) || (GEMINI_API_KEY =? KEY_PLACEHOLDER).

Definition SYSTEM_PROMPT : string :=
"You are an expert ATS (Applicant Tracking System) resume analyzer. Score the resume realistically, not overly strict. Most good resumes should score between 60 and 85. Be encouraging and provide actionable feedback for each section.

Strictly evaluate the following resume as a real ATS would, using these criteria:
- Keyword & phrase match for the target job
- Work experience relevance and quantification
- Skills match (technical and soft)
- Education completeness
- Formatting & structure (ATS-friendly, no images, simple layout, clear sections)

For each category, give a score out of 100.
For each section, provide 1-2 sentences of feedback.
Return your response as a JSON object with these keys:
- overallScore
- keywordsScore
- experienceScore
- skillsScore
- educationScore
- formattingScore
- feedback (object with keys: keywords, experience, skills, education, formatting)
- improvementSuggestions (array of 3-5 actionable suggestions)
".

Record FetchedResponse : Type := {
  ok : bool;
  http_status : Z;
  json_promise : outcome json
}.

(** [await fetch(GEMINI_API_URL, { method: "POST", ..., body })]: the
    request is logged, a rejection is a throw. *)
Definition call_fetch (w : World) (request : json) : M FetchedResponse :=
  ([request],
   match fetch w request with
   | FetchRejects e => Throw e
   | FetchResponse o s j => Ret {| ok := o; http_status := s; json_promise := j |}
   end).

Definition contents_of (prompt : string) : json :=
  JArr [ JObj [ ("parts", JArr [ JObj [ ("text", JStr prompt) ] ]) ] ].

(** [data?.candidates?.[0]?.content?.parts?.[0]?.text || ""] *)
Definition candidate_text (data : json) : json :=
  let o := Js.opt_prop in
  Js.or (o (o (o (o (o (o (Some data) "candidates") "0") "content") "parts") "0") "text")
        (JStr "").

(** [v.trim()] on a value that need not be a string: anything else has no
    callable [trim], and the call is a [TypeError]. *)
Definition call_trim (v : json) : outcome string :=
  match v with
  | JStr s => Ret (JsString.trim s)
  | _ => Throw (ErrorObj "resultText.trim is not a function")
  end.

Definition classify_prompt (text : string) : string :=
  "Is the following document a resume or CV? Reply only with 'yes' or 'no'."
  ++ JsString.LF ++ JsString.LF ++ "Document:" ++ JsString.LF ++ text.

Definition classify_request (text : string) : json :=
  JObj [ ("contents", contents_of (classify_prompt text)) ].

(** The last [try] block of [isResumeDocument]. *)
Definition read_answer (response : FetchedResponse) : M bool :=
  data <- lift (json_promise response) ;;
  resultText <- lift (call_trim (candidate_text data)) ;;
  ret (JsString.startsWith (JsString.toLowerCase resultText) "yes").

Definition isResumeDocument (w : World) (text : string) : M bool :=
  if key_missing then ret true
  else
    match call_fetch w (classify_request text) with
    | (l, Throw _) => (l, Ret true)
    | (l, Ret response) =>
        if negb (ok response) then (l, Ret true)
        else
          _ <- (l, Ret tt) ;;
          try_catch (read_answer response) (fun _ => ret true)
    end.

Definition NO_FEEDBACK : json := JStr "No feedback provided.".
Definition NO_SUGGESTIONS : json := JArr [ JStr "No suggestions provided." ].

(** [Array.isArray(v) && v.length > 0 ? v : ["No suggestions provided."]] *)
Definition suggestions_or_default (v : option json) : json :=
  match v with
  | Some (JArr (x :: r)) => JArr (x :: r)
  | _ => NO_SUGGESTIONS
  end.

(** [result.feedback]: reading a property of [null] is a [TypeError]. *)
Definition read_feedback (result : json) : outcome (option json) :=
  match result with
  | JNull => Throw (ErrorObj "Cannot read properties of null (reading 'feedback')")
  | _ => Ret (Js.prop result "feedback")
  end.

Definition fillSectionDefaults (result : json) : outcome json :=
  match read_feedback result with
  | Throw e => Throw e
  | Ret fb =>
      let section k := (k, Js.or (Js.opt_prop fb k) NO_FEEDBACK) in
      Ret (JObj
        (Js.set "improvementSuggestions"
           (suggestions_or_default (Js.prop result "improvementSuggestions"))
           (Js.set "feedback"
              (JObj [ section "keywords"; section "experience"; section "skills";
                      section "education"; section "formatting" ])
              (Js.spread result []))))
  end.

(** The object [fillSectionDefaults] builds from a value that is not
    [null]. *)
Definition filled (upstream : json) : list (string * json) :=
  let fb := Js.prop upstream "feedback" in
  let section k := (k, Js.or (Js.opt_prop fb k) NO_FEEDBACK) in
  Js.set "improvementSuggestions"
    (suggestions_or_default (Js.prop upstream "improvementSuggestions"))
    (Js.set "feedback"
       (JObj [ section "keywords"; section "experience"; section "skills";
               section "education"; section "formatting" ])
       (Js.spread upstream [])).

Definition NOT_CONFIGURED : string :=
  "API not configured. Please configure Gemini API key for detailed analysis.".

Definition no_key_analysis : json :=
  JObj (analysis_literal 75
    NOT_CONFIGURED NOT_CONFIGURED NOT_CONFIGURED NOT_CONFIGURED NOT_CONFIGURED
    [ "Configure your Gemini API key for detailed resume analysis.";
      "Ensure your resume is in PDF or DOCX format.";
      "Make sure your resume contains clear sections for experience, skills, and education." ]).

Definition analyze_prompt (text : string) : string :=
  SYSTEM_PROMPT ++ JsString.LF ++ JsString.LF ++ "Resume:" ++ JsString.LF ++ text.

Definition analyze_request (text : string) : json :=
  JObj [ ("contents", contents_of (analyze_prompt text));
         ("generationConfig",
          JObj [ ("temperature", JNum 0); ("topP", JNum 1); ("topK", JNum 1) ]) ].

(** [s.trim().replace(/^```json\s*/i, '').replace(/^```/, '')
      .replace(/```$/, '').trim()] *)
Definition strip_code_fence (trimmed : string) : string :=
  JsString.trim
    (JsString.strip_fence_end
       (JsString.strip_fence_start (JsString.strip_json_fence trimmed))).

Definition EMPTY_TEXT : string :=
  "Resume text is empty. Cannot analyze an empty document.".
Definition CONNECT_FAILED : string :=
  "Failed to connect to analysis service. Please try again later.".
Definition RESPONSE_UNPARSED : string :=
  "Failed to parse analysis response. Please try again later.".
Definition RESULTS_UNPARSED : string :=
  "Failed to parse analysis results. Please try again later.".
Definition service_error (code : Z) : string :=
  "Analysis service error: " ++ JsString.of_Z code ++ ". Please try again later.".

(** What follows the status check of [analyzeResumeWithGemini], up to
    [JSON.parse]: the value the service's answer parses to. *)
Definition parse_analysis (response : FetchedResponse) : outcome json :=
  match json_promise response with
  | Throw _ => Throw (ErrorObj RESPONSE_UNPARSED)
  | Ret data =>
      match call_trim (candidate_text data) with
      | Throw e => Throw e
      | Ret trimmed =>
          match JSON_parse (strip_code_fence trimmed) with
          | None => Throw (ErrorObj RESULTS_UNPARSED)
          | Some result => Ret result
          end
      end
  end.

(** [return fillSectionDefaults(result)] *)
Definition read_analysis (response : FetchedResponse) : outcome json :=
  match parse_analysis response with
  | Throw e => Throw e
  | Ret result => fillSectionDefaults result
  end.

(** [!text || !text.trim()] *)
Definition blank (text : string) : bool :=
  negb (JsString.nonempty text) || negb (JsString.nonempty (JsString.trim text)).

Definition analyzeResumeWithGemini (w : World) (text : string) : M json :=
  if blank text
  then throw (ErrorObj EMPTY_TEXT)
  else if key_missing then ret no_key_analysis
  else
    response <- try_catch (call_fetch w (analyze_request text))
                          (fun _ => throw (ErrorObj CONNECT_FAILED)) ;;
    if negb (ok response)
    then throw (ErrorObj (service_error (http_status response)))
    else lift (read_analysis response).

End Gemini.

(* ================================================================== *)
(** * server/routes.ts *)

Section Routes.

Local Open Scope Z_scope.

(** [crypto.createHash('sha256').update(text).digest('hex')] *)
Variable sha256_hex : string -> string.
Variable JSON_parse : string -> option json.
Variable env_GEMINI_API_KEY : option string.

(** [const resumeCache: Record<string, any> = {}] *)
Definition Cache : Type := list (string * json).

(** [if (resumeCache[hash])] *)
Definition cache_hit (cache : Cache) (hash : string) : option json :=
  match Js.assoc hash cache with
  | Some v => if Js.truthy v then Some v else None
  | None => None
  end.

Definition provenance (w : World) (file : File) : list (string * json) :=
  [ ("id", JNum (Date_now w));
    ("filename", JStr (originalname file));
    ("fileType", JStr (mimetype file));
    ("createdAt", JStr (Date_toISOString w)) ].

Definition NOT_A_RESUME : string :=
  "This document does not appear to be a resume. Please upload a valid resume (CV) for analysis.".

Definition notResumeResult (w : World) (file : File) : json :=
  JObj (provenance w file ++
        analysis_literal 0
          NOT_A_RESUME NOT_A_RESUME NOT_A_RESUME NOT_A_RESUME NOT_A_RESUME
          [ "Please upload a resume or CV document for accurate analysis." ])%list.

(** The analysis the route substitutes when the analyzer throws. *)
Definition technical_fallback : json :=
  JObj (analysis_literal 70
    "Unable to analyze keywords due to technical issues. Please try again later."
    "Unable to analyze experience due to technical issues. Please try again later."
    "Unable to analyze skills due to technical issues. Please try again later."
    "Unable to analyze education due to technical issues. Please try again later."
    "Unable to analyze formatting due to technical issues. Please try again later."
    [ "Please try uploading your resume again in a few moments.";
      "Ensure your resume is in PDF or DOCX format.";
      "Check that your resume contains clear sections for experience, skills, and education." ]).

(** [{ id, filename, fileType, createdAt, ...analysisResult }] *)
Definition with_provenance (w : World) (file : File) (analysisResult : json) : json :=
  JObj (Js.spread analysisResult (provenance w file)).

(** The classification step with the route's own [try]/[catch] around
    it. *)
Definition classify (w : World) (text : string) : M bool :=
  try_catch (isResumeDocument env_GEMINI_API_KEY w text) (fun _ => ret true).

(** The analysis step with the route's own [try]/[catch] around it. *)
Definition analyze_or_fallback (w : World) (text : string) : M json :=
  try_catch (analyzeResumeWithGemini JSON_parse env_GEMINI_API_KEY w text)
            (fun _ => ret technical_fallback).

(** The body of the outer [try] of [POST /api/resume/analyze]: the
    response and the cache it leaves. *)
Definition post_analyze_try (w : World) (file : option File) (cache : Cache)
  : M (Response * Cache) :=
  match file with
  | None => ret (message_response 400 "No file uploaded", cache)
  | Some file =>
      match extractTextFromDocument w (buffer file) (mimetype file) with
      | Throw extractError =>
          ret (message_response 400
                 (message_or extractError "Failed to extract text from document"),
               cache)
      | Ret text =>
          let hash := sha256_hex text in
          match cache_hit cache hash with
          | Some cached => ret ({| status := 200; body := cached |}, cache)
          | None =>
              isResume <- classify w text ;;
              if negb isResume then
                let r := notResumeResult w file in
                ret ({| status := 200; body := r |}, Js.set hash r cache)
              else
                analysisResult <- analyze_or_fallback w text ;;
                let r := with_provenance w file analysisResult in
                ret ({| status := 200; body := r |}, Js.set hash r cache)
          end
      end
  end.

(** [POST /api/resume/analyze]: the requests sent to the external service,
    the response, and the cache afterwards. *)
Definition post_analyze (w : World) (file : option File) (cache : Cache)
  : list json * (Response * Cache) :=
  match post_analyze_try w file cache with
  | (l, Ret r) => (l, r)
  | (l, Throw error) =>
      (l, (message_response 500
             (message_or error "An error occurred while analyzing the resume"),
           cache))
  end.

Definition sent (run : list json * (Response * Cache)) : list json := fst run.
Definition answer (run : list json * (Response * Cache)) : Response := fst (snd run).
Definition cache_after (run : list json * (Response * Cache)) : Cache := snd (snd run).

(** The extraction of the upload succeeds with [text]. *)
Definition extracts (w : World) (file : File) (text : string) : Prop :=
  extractTextFromDocument w (buffer file) (mimetype file) = Ret text.

(** The analysis a miss works with: the analyzer's, or the technical
    fallback when the analyzer throws. *)
Definition analysis_or_fallback (w : World) (text : string) : json :=
  match result (analyzeResumeWithGemini JSON_parse env_GEMINI_API_KEY w text) with
  | Ret a => a
  | Throw _ => technical_fallback
  end.

(** ** [parseInt] without a radix *)

Definition digit_value (c : ascii) : option Z :=
  let n := Z.of_N (N_of_ascii c) in
  if (48 <=? n) && (n <=? 57) then Some (n - 48)
  else if (97 <=? n) && (n <=? 102) then Some (n - 87)
  else if (65 <=? n) && (n <=? 70) then Some (n - 55)
  else None.

(** The value of the longest prefix of digits of the radix, [None] when
    there is no digit. *)
Fixpoint digits (radix : Z) (acc : option Z) (s : string) : option Z :=
  match s with
  | String c r =>
      match digit_value c with
      | Some d =>
          if d <? radix
          then digits radix (Some (match acc with Some a => a * radix + d | None => d end)) r
          else acc
      | None => acc
      end
  | EmptyString => acc
  end.

(** [parseInt(s)]: leading white space, a sign, a [0x] prefix, then
    digits; [None] is [NaN].  The value is the integer the digits spell
    (its rounding to a double is not represented). *)
Definition parseInt (s : string) : option Z :=
  let s := JsString.trimStart s in
  let '(sign, s) :=
    match s with
    | String "-" r => (-1, r)
    | String "+" r => (1, r)
    | _ => (1, s)
    end in
  let '(radix, s) :=
    if prefix "0x" s || prefix "0X" s then (16, JsString.drop 2 s) else (10, s) in
  option_map (Z.mul sign) (digits radix None s).

Definition demo_analysis (w : World) (id : Z) : json :=
  JObj [ ("id", JNum id);
         ("filename", JStr "sample-resume.pdf");
         ("fileType", JStr "application/pdf");
         ("createdAt", JStr (Date_toISOString w));
         ("overallScore", JNum 78);
         ("keywordsScore", JNum 75);
         ("experienceScore", JNum 82);
         ("skillsScore", JNum 80);
         ("educationScore", JNum 85);
         ("formattingScore", JNum 70);
         ("feedback", JObj [
            ("keywords", JStr "Your resume contains good keywords, but could benefit from more industry-specific terminology.");
            ("experience", JStr "Your work experience is well presented with quantified achievements.");
            ("skills", JStr "Your skills section is comprehensive and well organized.");
            ("education", JStr "Education details are clearly presented with relevant highlights.");
            ("formatting", JStr "The resume has a good structure but could be more ATS-friendly.") ]);
         ("improvementSuggestions", JArr (map JStr [
            "Add more industry-specific keywords throughout your resume.";
            "Quantify more achievements with specific metrics to demonstrate impact.";
            "Ensure consistent formatting of dates and headers for better ATS readability.";
            "Tailor your resume for each application by highlighting relevant experiences.";
            "Use standard section headers that are easily recognized by ATS systems." ])) ].

(** [GET /api/resume/analysis/:id] *)
Definition get_analysis (w : World) (id_param : string) : Response :=
  match parseInt id_param with
  | None => message_response 400 "Invalid ID format"
  | Some id =>
      match getResumeAnalysis w id with
      | Ret analysis =>
          match analysis with
          | Some a =>
              if Js.truthy a then {| status := 200; body := a |}
              else message_response 404 "Analysis not found"
          | None => message_response 404 "Analysis not found"
          end
      | Throw _ => {| status := 200; body := demo_analysis w id |}
      end
  end.

End Routes.

(* ================================================================== *)
(** * The result shape, as predicates *)

Module Shape.

Definition is_number (v : option json) : bool :=
  match v with Some (JNum _) => true | _ => false end.

Definition is_truthy (v : option json) : bool :=
  match v with Some x => Js.truthy x | None => false end.

Definition is_nonempty_string (v : option json) : bool :=
  match v with Some (JStr s) => JsString.nonempty s | _ => false end.

Definition is_nonempty_array (v : option json) : bool :=
  match v with Some (JArr (_ :: _)) => true | _ => false end.

(** [o.feedback?.[k]] *)
Definition feedback_field (o : json) (k : string) : option json :=
  Js.opt_prop (Js.prop o "feedback") k.

Definition scores_present (o : json) : bool :=
  forallb (fun k => is_number (Js.prop o k)) score_keys.

Definition feedback_strings (o : json) : bool :=
  forallb (fun k => is_nonempty_string (feedback_field o k)) feedback_keys.

Definition feedback_truthy (o : json) : bool :=
  forallb (fun k => is_truthy (feedback_field o k)) feedback_keys.

Definition suggestions_nonempty (o : json) : bool :=
  is_nonempty_array (Js.prop o "improvementSuggestions").

(** The invariants of an AnalysisResult as the specification words them:
    six numeric scores, five feedback fields that are non-empty strings,
    a non-empty sequence of suggestions. *)
Definition AnalysisResult_invariants (o : json) : bool :=
  scores_present o && feedback_strings o && suggestions_nonempty o.

Definition all_scores (o : json) (n : Z) : bool :=
  forallb (fun k => match Js.prop o k with
                    | Some (JNum m) => (m =? n)%Z
                    | _ => false
                    end) score_keys.

Definition is_decimal_digit (c : ascii) : bool :=
  let n := N_of_ascii c in ((48 <=? n) && (n <=? 57))%N.

Fixpoint all_decimal_digits (s : string) : bool :=
  match s with
  | String c r => is_decimal_digit c && all_decimal_digits r
  | EmptyString => true
  end.

(** A string of white space only. *)
Fixpoint all_ws (s : string) : bool :=
  match s with
  | String c r => JsString.is_ws c && all_ws r
  | EmptyString => true
  end.

(** What every analysis the route hands out has, whatever the service
    answered: filled feedback sections and at least one suggestion. *)
Definition answer_shape (o : json) : bool :=
feedback_truthy o && suggestions_nonempty o.

(** Every entry the cache can serve has that shape. *)
Definition cache_ok (cache : Cache) : Prop :=
forall h v, cache_hit cache h = Some v -> answer_shape v = true.

(** A numeric id, as the specification's words read: a non-empty run of
    decimal digits and nothing else. *)
Definition numeric_id (s : string) : bool :=
  JsString.nonempty s && all_decimal_digits s.

End Shape.

(* ================================================================== *)
(** * Sample worlds

    Concrete collaborators for the runs below.  [gemini_reply t] is the body
    of a response of the service whose first candidate carries the text
    [t]. *)

Module Sample.

Definition gemini_reply (t : string) : json :=
  JObj [ ("candidates",
          JArr [ JObj [ ("content",
                         JObj [ ("parts", JArr [ JObj [ ("text", JStr t) ] ]) ]) ] ]) ].

Definition answers (t : string) : FetchResult :=
  FetchResponse true 200 (Ret (gemini_reply t)).

Definition unavailable : FetchResult := FetchResponse false 503 (Ret JNull).

Definition network_down : FetchResult := FetchRejects (ErrorObj "fetch failed").

(** The analysis request is the one with a [generationConfig]. *)
Definition is_analysis_request (request : json) : bool :=
  Js.has_key "generationConfig" (Js.own_entries request).

Definition no_store : Z -> outcome (option json) := fun _ => Ret None.

Definition world (classifier analysis : FetchResult) (text : outcome string)
  : World :=
  {| fetch := fun request =>
                if is_analysis_request request then analysis else classifier;
     extractTextFromDocument := fun _ _ => text;
     Date_now := 1700000000000;
     Date_toISOString := "2023-11-14T22:13:20.000Z";
     getResumeAnalysis := no_store |}.

(** Another request, later, for which the service is down. *)
Definition later_world (text : outcome string) : World :=
  {| fetch := fun _ => network_down;
     extractTextFromDocument := fun _ _ => text;
     Date_now := 1700000099000;
     Date_toISOString := "2023-11-14T22:14:59.000Z";
     getResumeAnalysis := no_store |}.

Definition with_store (store : Z -> outcome (option json)) : World :=
  {| fetch := fun _ => network_down;
     extractTextFromDocument := fun _ _ => Throw OtherValue;
     Date_now := 1700000000000;
     Date_toISOString := "2023-11-14T22:13:20.000Z";
     getResumeAnalysis := store |}.

Definition cv_pdf : File :=
  {| originalname := "cv.pdf"; mimetype := "application/pdf"; buffer := [] |}.

Definition cv_docx : File :=
  {| originalname := "copy-of-cv.docx";
     mimetype := "application/vnd.openxmlformats-officedocument.wordprocessingml.document";
     buffer := [] |}.

(** Stands for SHA-256 in the runs: the route uses the digest only as a
    key, equal for equal texts. *)
Definition text_key (text : string) : string := "sha256:" ++ text.

(** [JSON.parse] on the one text the runs hand to it. *)
Definition parse_braces (s : string) : option json :=
  if s =? "{}" then Some (JObj []) else None.

Definition key : option string := Some "AIza-sample".

End Sample.

(* ================================================================== *)
(** * Facts about objects *)

Module JsFacts.

Lemma assoc_set (k k' : string) (v : json) (fs : list (string * json)) :
  Js.assoc k' (Js.set k v fs) = if k' =? k then Some v else Js.assoc k' fs.
Proof.
  induction fs as [|[k0 v0] r IH]; simpl.
  - destruct (k' =? k); reflexivity.
  - destruct (k =? k0) eqn:E; simpl.
    + apply String.eqb_eq in E; subst k0.
      destruct (k' =? k); reflexivity.
    + destruct (k' =? k0) eqn:E0.
      * apply String.eqb_eq in E0; subst k0.
        rewrite String.eqb_sym, E. reflexivity.
      * exact IH.
Qed.

Lemma assoc_set_same (k : string) (v : json) (fs : list (string * json)) :
  Js.assoc k (Js.set k v fs) = Some v.
Proof. rewrite assoc_set, String.eqb_refl. reflexivity. Qed.

Lemma assoc_set_other (k k' : string) (v : json) (fs : list (string * json)) :
  k' <> k -> Js.assoc k' (Js.set k v fs) = Js.assoc k' fs.
Proof.
  intros H. rewrite assoc_set.
  apply String.eqb_neq in H. rewrite H. reflexivity.
Qed.

(** Writing the value a property already has changes nothing. *)
Lemma set_same_value (k : string) (v : json) (fs : list (string * json)) :
  Js.assoc k fs = Some v -> Js.set k v fs = fs.
Proof.
  induction fs as [|[k0 v0] r IH]; simpl; [discriminate|].
  destruct (k =? k0) eqn:E.
  - apply String.eqb_eq in E; subst k0. intros [= ->]. reflexivity.
  - intros H. rewrite (IH H). reflexivity.
Qed.

Lemma assoc_app (k : string) (a b : list (string * json)) :
  Js.assoc k (a ++ b) =
  match Js.assoc k a with Some v => Some v | None => Js.assoc k b end.
Proof.
  induction a as [|[k0 v0] r IH]; simpl; [reflexivity|].
  destruct (k =? k0); [reflexivity | exact IH].
Qed.

Lemma assoc_map_value (k : string) (g : string -> json -> json)
      (fs : list (string * json)) :
  Js.assoc k (map (fun kv => (fst kv, g (fst kv) (snd kv))) fs) =
  option_map (g k) (Js.assoc k fs).
Proof.
  induction fs as [|[k0 v0] r IH]; simpl; [reflexivity|].
  destruct (k =? k0) eqn:E; [|exact IH].
  apply String.eqb_eq in E; subst k0. reflexivity.
Qed.

Lemma assoc_filter_key (k : string) (p : string -> bool)
      (l : list (string * json)) :
  p k = true ->
  Js.assoc k (filter (fun kv => p (fst kv)) l) = Js.assoc k l.
Proof.
  intros Hp. induction l as [|[k0 v0] r IH]; simpl; [reflexivity|].
  destruct (k =? k0) eqn:E.
  - apply String.eqb_eq in E; subst k0. rewrite Hp. simpl.
    rewrite String.eqb_refl. reflexivity.
  - destruct (p k0); simpl; [rewrite E|]; exact IH.
Qed.

(** Reading a property of [{ ...fs, ...v }]: the value in [v] when [v]
    has the property, the value in [fs] otherwise. *)
Lemma assoc_spread (k : string) (v : json) (fs : list (string * json)) :
  Js.assoc k (Js.spread v fs) =
  match Js.assoc k (Js.own_entries v) with
  | Some x => Some x
  | None => Js.assoc k fs
  end.
Proof.
  unfold Js.spread. rewrite assoc_app.
  rewrite (assoc_map_value k
             (fun k0 old => match Js.assoc k0 (Js.own_entries v) with
                            | Some x => x | None => old end) fs).
  destruct (Js.assoc k fs) as [y|] eqn:Efs; simpl.
  - destruct (Js.assoc k (Js.own_entries v)); reflexivity.
  - rewrite (assoc_filter_key k (fun k0 => negb (Js.has_key k0 fs))).
    + destruct (Js.assoc k (Js.own_entries v)); reflexivity.
    + unfold Js.has_key. rewrite Efs. reflexivity.
Qed.

Lemma spread_nil (fs : list (string * json)) :
  Js.spread (JObj fs) [] = fs.
Proof.
  unfold Js.spread. simpl.
  induction fs as [|kv r IH]; simpl; [reflexivity | now rewrite IH].
Qed.

End JsFacts.

(* ================================================================== *)
(** * The classifier *)

Section Classifier.

Variable env_GEMINI_API_KEY : option string.

(** How [isResumeDocument] ends, path by path. *)
Lemma isResumeDocument_result (w : World) (text : string) :
  result (isResumeDocument env_GEMINI_API_KEY w text) =
  Ret (if key_missing env_GEMINI_API_KEY then true
       else match fetch w (classify_request text) with
            | FetchRejects _ => true
            | FetchResponse false _ _ => true
            | FetchResponse true _ (Throw _) => true
            | FetchResponse true _ (Ret data) =>
                match candidate_text data with
                | JStr t =>
                    JsString.startsWith (JsString.toLowerCase (JsString.trim t)) "yes"
                | _ => true
                end
            end).
Proof.
  unfold isResumeDocument, call_fetch.
  destruct (key_missing env_GEMINI_API_KEY); [reflexivity|].
  destruct (fetch w (classify_request text)) as [e|[|] st [data|e]];
    try reflexivity.
  unfold read_answer, result; simpl.
  destruct (candidate_text data); reflexivity.
Qed.

(** The only request the classifier can send is its own. *)
Lemma isResumeDocument_calls (w : World) (text : string) :
  calls (isResumeDocument env_GEMINI_API_KEY w text) =
  if key_missing env_GEMINI_API_KEY then [] else [classify_request text].
Proof.
  unfold isResumeDocument, call_fetch.
  destruct (key_missing env_GEMINI_API_KEY); [reflexivity|].
  destruct (fetch w (classify_request text)) as [e|[|] st [data|e]];
    try reflexivity.
  unfold read_answer, calls; simpl.
  destruct (candidate_text data); reflexivity.
Qed.


(** C9: [isResumeDocument] never throws, whatever the text and whatever
    the service does, so the [catch] the route puts around it never runs:
    the guarded call is the call. *)
Theorem isResumeDocument_never_throws (w : World) (text : string) :
  (exists b, result (isResumeDocument env_GEMINI_API_KEY w text) = Ret b) /\
  classify env_GEMINI_API_KEY w text = isResumeDocument env_GEMINI_API_KEY w text.
Proof.
  unfold classify.
  pose proof (isResumeDocument_result w text) as H.
  split; [eexists; exact H|].
  unfold result in H.
  destruct (isResumeDocument env_GEMINI_API_KEY w text) as [l o].
  simpl in H. subst o. reflexivity.
Qed.

End Classifier.

(* ================================================================== *)
(** * The normaliser *)

Section Normaliser.

Import Shape.

Lemma or_truthy (a : option json) (b : json) :
  Js.truthy b = true -> Js.truthy (Js.or a b) = true.
Proof.
  intros Hb. destruct a as [v|]; simpl; [|exact Hb].
  destruct (Js.truthy v) eqn:E; [exact E | exact Hb].
Qed.

Lemma fillSectionDefaults_filled (upstream : json) :
  upstream <> JNull -> fillSectionDefaults upstream = Ret (JObj (filled upstream)).
Proof. destruct upstream; intros H; [congruence | reflexivity ..]. Qed.

Lemma fillSectionDefaults_null :
  exists e, fillSectionDefaults JNull = Throw e.
Proof. eexists; reflexivity. Qed.

Lemma fillSectionDefaults_object (upstream out : json) :
  fillSectionDefaults upstream = Ret out -> out = JObj (filled upstream).
Proof. destruct upstream; simpl; intros [= <-]; reflexivity. Qed.

Lemma filled_other (upstream : json) (k : string) :
  k <> "feedback" -> k <> "improvementSuggestions" ->
  Js.assoc k (filled upstream) = Js.prop upstream k.
Proof.
  intros H1 H2. unfold filled.
  rewrite !JsFacts.assoc_set_other by assumption.
  rewrite JsFacts.assoc_spread. unfold Js.prop.
  destruct (Js.assoc k (Js.own_entries upstream)); reflexivity.
Qed.

Lemma filled_feedback (upstream : json) (k : string) :
  In k feedback_keys ->
  feedback_field (JObj (filled upstream)) k =
  Some (Js.or (feedback_field upstream k) NO_FEEDBACK).
Proof.
  intros Hk. unfold feedback_field, Js.prop, filled. simpl Js.own_entries.
  rewrite JsFacts.assoc_set_other by discriminate.
  rewrite JsFacts.assoc_set_same.
  simpl in Hk.
  destruct Hk as [<-|[<-|[<-|[<-|[<-|[]]]]]]; reflexivity.
Qed.

Lemma filled_suggestions (upstream : json) :
  Js.assoc "improvementSuggestions" (filled upstream) =
  Some (suggestions_or_default (Js.prop upstream "improvementSuggestions")).
Proof. unfold filled. apply JsFacts.assoc_set_same. Qed.

Lemma score_key_other (k : string) :
  In k score_keys -> k <> "feedback" /\ k <> "improvementSuggestions".
Proof.
  simpl. intros [<-|[<-|[<-|[<-|[<-|[<-|[]]]]]]]; split; discriminate.
Qed.

(** C5, as the code has it: normalisation of a parsed upstream result
    other than [null] keeps the six score fields as they are, whatever their value,
    keeps every feedback field that is non-empty, puts
    "No feedback provided." where a feedback field is missing or empty,
    keeps a non-empty suggestions array and puts
    ["No suggestions provided."] where it is empty or absent; the scores
    reach the route's response unchanged as well. *)
Theorem normalisation_defaults_and_passthrough (upstream : json) :
  upstream <> JNull ->
  exists out,
    fillSectionDefaults upstream = Ret out /\
    (forall k, In k score_keys -> Js.prop out k = Js.prop upstream k) /\
    (forall w file k, In k score_keys ->
       Js.prop (with_provenance w file out) k = Js.prop upstream k) /\
    (forall k, In k feedback_keys ->
       (forall v, feedback_field upstream k = Some v -> Js.truthy v = true ->
                  feedback_field out k = Some v) /\
       (feedback_field upstream k = None \/
        feedback_field upstream k = Some (JStr "") ->
        feedback_field out k = Some (JStr "No feedback provided."))) /\
    (forall x r, Js.prop upstream "improvementSuggestions" = Some (JArr (x :: r)) ->
                 Js.prop out "improvementSuggestions" = Some (JArr (x :: r))) /\
    (Js.prop upstream "improvementSuggestions" = None \/
     Js.prop upstream "improvementSuggestions" = Some (JArr []) ->
     Js.prop out "improvementSuggestions"
     = Some (JArr [JStr "No suggestions provided."])).
Proof.
  intros Hnn. exists (JObj (filled upstream)).
  split; [exact (fillSectionDefaults_filled upstream Hnn)|].
  split; [|split; [|split; [|split]]].
  - intros k Hk. destruct (score_key_other k Hk) as [H1 H2].
    exact (filled_other upstream k H1 H2).
  - intros w file k Hk. destruct (score_key_other k Hk) as [H1 H2].
    unfold with_provenance, Js.prop at 1. simpl Js.own_entries.
    rewrite JsFacts.assoc_spread. simpl Js.own_entries.
    rewrite (filled_other upstream k H1 H2).
    destruct (Js.prop upstream k); [reflexivity|].
    simpl in Hk.
    destruct Hk as [<-|[<-|[<-|[<-|[<-|[<-|[]]]]]]]; reflexivity.
  - intros k Hk. rewrite (filled_feedback upstream k Hk). split.
    + intros v Hv Ht. rewrite Hv. simpl. rewrite Ht. reflexivity.
    + intros [H|H]; rewrite H; reflexivity.
  - intros x r H. unfold Js.prop at 1. simpl Js.own_entries.
    rewrite filled_suggestions, H. reflexivity.
  - intros [H|H]; unfold Js.prop at 1; simpl Js.own_entries;
      rewrite filled_suggestions, H; reflexivity.
Qed.

End Normaliser.

(* ================================================================== *)
(** * The analyzer *)

Section Analyzer.

Variable JSON_parse : string -> option json.
Variable env_GEMINI_API_KEY : option string.

Let analyze := analyzeResumeWithGemini JSON_parse env_GEMINI_API_KEY.

Lemma analyze_blank (w : World) (text : string) :
  blank text = true -> analyze w text = ([], Throw (ErrorObj EMPTY_TEXT)).
Proof.
  unfold analyze, analyzeResumeWithGemini, blank. intros ->. reflexivity.
Qed.

Lemma analyze_no_key (w : World) (text : string) :
  blank text = false -> key_missing env_GEMINI_API_KEY = true ->
  analyze w text = ([], Ret no_key_analysis).
Proof.
  unfold analyze, analyzeResumeWithGemini, blank. intros -> ->. reflexivity.
Qed.

(** With a credential and a text that is not blank, the analyzer sends
    exactly its request and ends as the response dictates. *)
Lemma analyze_with_key (w : World) (text : string) :
  blank text = false -> key_missing env_GEMINI_API_KEY = false ->
  analyze w text =
  ([analyze_request text],
   match fetch w (analyze_request text) with
   | FetchRejects _ => Throw (ErrorObj CONNECT_FAILED)
   | FetchResponse false st _ => Throw (ErrorObj (service_error st))
   | FetchResponse true st j =>
       read_analysis JSON_parse {| ok := true; http_status := st; json_promise := j |}
   end).
Proof.
  unfold analyze, analyzeResumeWithGemini, blank, call_fetch.
  intros -> ->. simpl.
  destruct (fetch w (analyze_request text)) as [e|[|] st j]; simpl;
    reflexivity.
Qed.

(** An analysis the analyzer returns is the fixed one for a missing
    credential, or the normalised form of what the service's answer
    parsed to. *)
Lemma analyze_returns (w : World) (text : string) (a : json) :
  result (analyze w text) = Ret a ->
  a = no_key_analysis \/
  exists st j upstream,
    fetch w (analyze_request text) = FetchResponse true st j /\
    parse_analysis JSON_parse
      {| ok := true; http_status := st; json_promise := j |} = Ret upstream /\
    fillSectionDefaults upstream = Ret a.
Proof.
  destruct (blank text) eqn:Eb.
  - rewrite (analyze_blank w text Eb). discriminate.
  - destruct (key_missing env_GEMINI_API_KEY) eqn:Ek.
    + rewrite (analyze_no_key w text Eb Ek). intros [= <-]. now left.
    + rewrite (analyze_with_key w text Eb Ek). unfold result; simpl.
      destruct (fetch w (analyze_request text)) as [e|[|] st j];
        try discriminate.
      unfold read_analysis.
      destruct (parse_analysis JSON_parse _) as [upstream|e] eqn:Ep;
        [|discriminate].
      intros H. right. exists st, j, upstream. auto.
Qed.

Lemma analyze_calls (w : World) (text : string) :
  calls (analyze w text) =
  if blank text || key_missing env_GEMINI_API_KEY then []
  else [analyze_request text].
Proof.
  destruct (blank text) eqn:Eb.
  - rewrite (analyze_blank w text Eb). reflexivity.
  - destruct (key_missing env_GEMINI_API_KEY) eqn:Ek.
    + rewrite (analyze_no_key w text Eb Ek). reflexivity.
    + rewrite (analyze_with_key w text Eb Ek). reflexivity.
Qed.

End Analyzer.

(* ================================================================== *)
(** * POST /api/resume/analyze *)

Section Pipeline.

Import Shape.
Local Open Scope Z_scope.

Variable sha256_hex : string -> string.
Variable JSON_parse : string -> option json.
Variable env_GEMINI_API_KEY : option string.

Let process := post_analyze sha256_hex JSON_parse env_GEMINI_API_KEY.
Let isResume := isResumeDocument env_GEMINI_API_KEY.
Let analyze := analyzeResumeWithGemini JSON_parse env_GEMINI_API_KEY.

Lemma cache_hit_set (cache : Cache) (hash : string) (v : json) :
  Js.truthy v = true -> cache_hit (Js.set hash v cache) hash = Some v.
Proof.
  intros Hv. unfold cache_hit. rewrite JsFacts.assoc_set_same, Hv. reflexivity.
Qed.

Lemma cache_hit_set_other (cache : Cache) (hash hash' : string) (v : json) :
  hash' <> hash -> cache_hit (Js.set hash v cache) hash' = cache_hit cache hash'.
Proof.
  intros H. unfold cache_hit. rewrite JsFacts.assoc_set_other by exact H.
  reflexivity.
Qed.

(** A hit answers from the cache: nothing is sent, nothing is written. *)
Lemma process_hit (w : World) (file : File) (cache : Cache)
      (text : string) (v : json) :
  extracts w file text ->
  cache_hit cache (sha256_hex text) = Some v ->
  process w (Some file) cache = ([], ({| status := 200; body := v |}, cache)).
Proof.
  unfold process, post_analyze, post_analyze_try, extracts.
  intros -> ->. reflexivity.
Qed.

(** A miss classifies, analyzes unless the classifier said no, stores the
    result under the digest of the text and answers 200 with it. *)
Lemma process_miss (w : World) (file : File) (cache : Cache) (text : string) :
  extracts w file text ->
  cache_hit cache (sha256_hex text) = None ->
  process w (Some file) cache =
  match result (isResume w text) with
  | Ret false =>
      let r := notResumeResult w file in
      (calls (isResume w text),
       ({| status := 200; body := r |}, Js.set (sha256_hex text) r cache))
  | _ =>
      let r := with_provenance w file
                 (analysis_or_fallback JSON_parse env_GEMINI_API_KEY w text) in
      ((calls (isResume w text) ++ calls (analyze w text))%list,
       ({| status := 200; body := r |}, Js.set (sha256_hex text) r cache))
  end.
Proof.
  unfold process, post_analyze, post_analyze_try, extracts.
  intros -> ->.
  unfold classify, analyze_or_fallback, analysis_or_fallback, isResume, analyze,
    result, calls.
  destruct (isResumeDocument env_GEMINI_API_KEY w text) as [l [[|]|e]];
    destruct (analyzeResumeWithGemini JSON_parse env_GEMINI_API_KEY w text)
      as [l' [a|e']];
    simpl; rewrite ?app_nil_r; reflexivity.
Qed.

(** What a miss stores is an object. *)
Lemma process_miss_shape (w : World) (file : File) (cache : Cache) (text : string) :
  extracts w file text ->
  cache_hit cache (sha256_hex text) = None ->
  exists fields,
    answer (process w (Some file) cache)
    = {| status := 200; body := JObj fields |} /\
    cache_after (process w (Some file) cache)
    = Js.set (sha256_hex text) (JObj fields) cache.
Proof.
  intros He Hm. rewrite (process_miss w file cache text He Hm).
  destruct (result (isResume w text)) as [[|]|e];
    eexists; split; reflexivity.
Qed.

(** Once the text is extracted the request is answered 200, and its
    answer is what the cache then holds for the text. *)
Lemma process_answers_from_cache (w : World) (file : File) (cache : Cache)
      (text : string) :
  extracts w file text ->
  exists v,
    answer (process w (Some file) cache) = {| status := 200; body := v |} /\
    cache_hit (cache_after (process w (Some file) cache)) (sha256_hex text)
    = Some v.
Proof.
  intros He.
  destruct (cache_hit cache (sha256_hex text)) as [v|] eqn:Eh.
  - exists v. rewrite (process_hit w file cache text v He Eh).
    split; [reflexivity | exact Eh].
  - destruct (process_miss_shape w file cache text He Eh) as (fs & Ha & Hc).
    exists (JObj fs). rewrite Ha, Hc.
    split; [reflexivity | apply cache_hit_set; reflexivity].
Qed.

(** A second upload of the same text is answered from what the first
    left. *)
Lemma process_replays (w1 w2 : World) (file1 file2 : File) (cache : Cache)
      (text : string) :
  extracts w1 file1 text -> extracts w2 file2 text ->
  process w2 (Some file2) (cache_after (process w1 (Some file1) cache))
  = ([], (answer (process w1 (Some file1) cache),
          cache_after (process w1 (Some file1) cache))).
Proof.
  intros H1 H2.
  destruct (process_answers_from_cache w1 file1 cache text H1) as (v & Ha & Hc).
  rewrite (process_hit w2 file2 _ text v H2 Hc), Ha. reflexivity.
Qed.

(** ** The shape of what a miss returns *)

Lemma fixed_analysis_invariants (w : World) (file : File) :
  AnalysisResult_invariants (notResumeResult w file) = true /\
  AnalysisResult_invariants (with_provenance w file technical_fallback) = true /\
  AnalysisResult_invariants (with_provenance w file no_key_analysis) = true.
Proof. repeat split; reflexivity. Qed.

Lemma with_provenance_prop (w : World) (file : File) (a : json) (k : string) :
  Js.prop (with_provenance w file a) k =
  match Js.prop a k with
  | Some v => Some v
  | None => Js.assoc k (provenance w file)
  end.
Proof.
  unfold with_provenance, Js.prop at 1. simpl Js.own_entries.
  apply JsFacts.assoc_spread.
Qed.

Lemma normalised_feedback_truthy (w : World) (file : File) (upstream : json) :
  feedback_truthy (with_provenance w file (JObj (filled upstream))) = true.
Proof.
  unfold feedback_truthy, feedback_field.
  rewrite with_provenance_prop.
  unfold Js.prop at 1. simpl Js.own_entries.
  unfold filled at 1.
  rewrite JsFacts.assoc_set_other by discriminate.
  rewrite JsFacts.assoc_set_same.
  simpl. rewrite !or_truthy by reflexivity. reflexivity.
Qed.

Lemma normalised_suggestions_nonempty (w : World) (file : File) (upstream : json) :
  suggestions_nonempty (with_provenance w file (JObj (filled upstream))) = true.
Proof.
  unfold suggestions_nonempty. rewrite with_provenance_prop.
  unfold Js.prop at 1. simpl Js.own_entries.
  rewrite filled_suggestions.
  destruct (Js.prop upstream "improvementSuggestions") as [[| | | |[|x r]|]|];
    reflexivity.
Qed.

Lemma normalised_scores (w : World) (file : File) (upstream : json) (k : string) :
  In k score_keys ->
  Js.prop (with_provenance w file (JObj (filled upstream))) k = Js.prop upstream k.
Proof.
  intros Hk. destruct (score_key_other k Hk) as [H1 H2].
  rewrite with_provenance_prop.
  change (Js.prop (JObj (filled upstream)) k) with (Js.assoc k (filled upstream)).
  rewrite (filled_other upstream k H1 H2).
  destruct (Js.prop upstream k); [reflexivity|].
  simpl in Hk.
  destruct Hk as [<-|[<-|[<-|[<-|[<-|[<-|[]]]]]]]; reflexivity.
Qed.

(** ** The claims about the route *)

(** C1, as the code has it: an upload whose text is extracted and is not
    in the cache is answered 200 with a body whose five feedback fields
    are present and non-empty and whose suggestions are a non-empty array.
    Path by path: when the classifier answers no, the body is the NotResume
    result; without a credential (and with a text that is not blank) it is
    the score-75 analysis under the upload's provenance; when the analyzer
    throws it is the score-70 technical fallback; each of these three
    satisfies all the AnalysisResult invariants.  On the success path the
    body is the normalised answer of the service under the upload's
    provenance, and each of the six score fields is what the parsed answer
    carries under that name, present or not. *)
Theorem fresh_result_shape (w : World) (file : File) (cache : Cache)
        (text : string) :
  extracts w file text ->
  cache_hit cache (sha256_hex text) = None ->
  let r := answer (process w (Some file) cache) in
  status r = 200 /\
  feedback_truthy (body r) = true /\
  suggestions_nonempty (body r) = true /\
  (result (isResume w text) = Ret false ->
   body r = notResumeResult w file /\
   AnalysisResult_invariants (body r) = true) /\
  (key_missing env_GEMINI_API_KEY = true -> blank text = false ->
   body r = with_provenance w file no_key_analysis /\
   AnalysisResult_invariants (body r) = true) /\
  (result (isResume w text) = Ret true ->
   forall e, result (analyze w text) = Throw e ->
   body r = with_provenance w file technical_fallback /\
   AnalysisResult_invariants (body r) = true) /\
  (result (isResume w text) = Ret true ->
   blank text = false ->
   key_missing env_GEMINI_API_KEY = false ->
   forall st j upstream a,
     fetch w (analyze_request text) = FetchResponse true st j ->
     parse_analysis JSON_parse
       {| ok := true; http_status := st; json_promise := j |} = Ret upstream ->
     fillSectionDefaults upstream = Ret a ->
     body r = with_provenance w file a /\
     forall k, In k score_keys -> Js.prop (body r) k = Js.prop upstream k).
Proof.
  intros He Hm r. subst r. rewrite (process_miss w file cache text He Hm).
  destruct (fixed_analysis_invariants w file) as (Hn & Ht & Hk).
  assert (Hsplit : forall o, AnalysisResult_invariants o = true ->
            feedback_truthy o = true /\ suggestions_nonempty o = true).
  { intros o Ho. unfold AnalysisResult_invariants in Ho.
    apply andb_prop in Ho. destruct Ho as [Ho Hs].
    apply andb_prop in Ho. destruct Ho as [_ Hf].
    split; [|exact Hs].
    unfold feedback_truthy, feedback_strings in *.
    rewrite forallb_forall in *. intros k Hin. specialize (Hf k Hin).
    unfold is_nonempty_string, is_truthy in *.
    destruct (feedback_field o k) as [[]|]; try discriminate. exact Hf. }
  assert (Hshape : let b := with_provenance w file
                             (analysis_or_fallback JSON_parse env_GEMINI_API_KEY w text) in
            feedback_truthy b = true /\ suggestions_nonempty b = true).
  { unfold analysis_or_fallback.
    destruct (result (analyzeResumeWithGemini JSON_parse env_GEMINI_API_KEY w text))
      as [a|e] eqn:Ea; cbv zeta.
    - destruct (analyze_returns JSON_parse env_GEMINI_API_KEY w text a Ea)
        as [->|(st & j & upstream & Hf & Hp & Hfill)].
      + exact (Hsplit _ Hk).
      + apply fillSectionDefaults_object in Hfill. subst a.
        split; [apply normalised_feedback_truthy
               | apply normalised_suggestions_nonempty].
    - exact (Hsplit _ Ht). }
  assert (Hnokey : key_missing env_GEMINI_API_KEY = true -> blank text = false ->
            result (isResume w text) = Ret true /\
            analysis_or_fallback JSON_parse env_GEMINI_API_KEY w text = no_key_analysis).
  { intros Hkm Hb. split.
    - unfold isResume. rewrite isResumeDocument_result, Hkm. reflexivity.
    - unfold analysis_or_fallback.
      rewrite (analyze_no_key JSON_parse env_GEMINI_API_KEY w text Hb Hkm).
      reflexivity. }
  assert (Hthrow : forall e, result (analyze w text) = Throw e ->
            analysis_or_fallback JSON_parse env_GEMINI_API_KEY w text
            = technical_fallback).
  { intros e Ha. unfold analysis_or_fallback. fold analyze. rewrite Ha. reflexivity. }
  assert (Hok : blank text = false -> key_missing env_GEMINI_API_KEY = false ->
            forall st j upstream a,
              fetch w (analyze_request text) = FetchResponse true st j ->
              parse_analysis JSON_parse
                {| ok := true; http_status := st; json_promise := j |} = Ret upstream ->
              fillSectionDefaults upstream = Ret a ->
              analysis_or_fallback JSON_parse env_GEMINI_API_KEY w text = a).
  { intros Hb Hkm st j upstream a Hf Hp Hfill. unfold analysis_or_fallback.
    rewrite (analyze_with_key JSON_parse env_GEMINI_API_KEY w text Hb Hkm).
    unfold result; simpl snd. rewrite Hf. unfold read_analysis.
    rewrite Hp, Hfill. reflexivity. }
  destruct (result (isResume w text)) as [[|]|e] eqn:Ec; cbv zeta;
    unfold answer; simpl fst; simpl status; simpl body.
  - (* classified as a resume *)
    destruct Hshape as (Hf & Hs).
    split; [reflexivity|]. split; [exact Hf|]. split; [exact Hs|].
    split; [discriminate|].
    split.
    { intros Hkm Hb. destruct (Hnokey Hkm Hb) as (_ & ->). split; [reflexivity | exact Hk]. }
    split.
    { intros _ e Ha. rewrite (Hthrow e Ha). split; [reflexivity | exact Ht]. }
    intros _ Hb Hkm st j upstream a Hf' Hp Hfill.
    rewrite (Hok Hb Hkm st j upstream a Hf' Hp Hfill).
    split; [reflexivity|].
    apply fillSectionDefaults_object in Hfill. subst a.
    intros k Hin. apply normalised_scores; exact Hin.
  - (* not a resume *)
    destruct (Hsplit _ Hn) as (Hf & Hs).
    split; [reflexivity|]. split; [exact Hf|]. split; [exact Hs|].
    split; [intros _; split; [reflexivity | exact Hn]|].
    split.
    { intros Hkm Hb. destruct (Hnokey Hkm Hb) as (Hc & _). discriminate Hc. }
    split; discriminate.
  - (* the classifier never throws *)
    exfalso. unfold isResume in Ec.
    rewrite isResumeDocument_result in Ec. discriminate Ec.
Qed.

(** C3: when the upload is classified as a resume and the analyzer throws
    (service unavailable, malformed response), the route answers 200 with
    the fixed fallback, all six scores 70, and stores that answer under
    the digest of the text. *)
Theorem technical_fallback_is_returned_and_cached
        (w : World) (file : File) (cache : Cache) (text : string) (e : exn) :
  extracts w file text ->
  cache_hit cache (sha256_hex text) = None ->
  result (isResume w text) = Ret true ->
  result (analyze w text) = Throw e ->
  let run := process w (Some file) cache in
  answer run = {| status := 200;
                  body := with_provenance w file technical_fallback |} /\
  all_scores (body (answer run)) 70 = true /\
  AnalysisResult_invariants (body (answer run)) = true /\
  cache_after run = Js.set (sha256_hex text) (body (answer run)) cache /\
  cache_hit (cache_after run) (sha256_hex text) = Some (body (answer run)).
Proof.
  intros He Hm Hc Ha run. subst run.
  rewrite (process_miss w file cache text He Hm), Hc.
  unfold analysis_or_fallback. fold analyze. rewrite Ha. cbv zeta.
  unfold answer, cache_after; simpl fst; simpl snd; simpl body.
  repeat split; try reflexivity.
  apply cache_hit_set. reflexivity.
Qed.

(** C6: when the classification call succeeds and its answer, trimmed and
    lower-cased, is [no], a miss answers with the NotResume result (six
    scores 0, the fixed message in every feedback field, the single
    suggestion), stores it under the digest, and a later upload of the
    same text is answered with exactly it, from the cache. *)
Theorem not_a_resume_is_cached_and_replayed
        (w1 w2 : World) (file1 file2 : File) (cache : Cache)
        (text : string) (st : Z) (data : json) (t : string) :
  extracts w1 file1 text ->
  cache_hit cache (sha256_hex text) = None ->
  key_missing env_GEMINI_API_KEY = false ->
  fetch w1 (classify_request text) = FetchResponse true st (Ret data) ->
  candidate_text data = JStr t ->
  JsString.toLowerCase (JsString.trim t) = "no" ->
  extracts w2 file2 text ->
  let first := process w1 (Some file1) cache in
  answer first = {| status := 200; body := notResumeResult w1 file1 |} /\
  all_scores (body (answer first)) 0 = true /\
  (forall k, In k feedback_keys ->
     feedback_field (body (answer first)) k = Some (JStr NOT_A_RESUME)) /\
  Js.prop (body (answer first)) "improvementSuggestions"
  = Some (JArr [JStr "Please upload a resume or CV document for accurate analysis."]) /\
  cache_hit (cache_after first) (sha256_hex text) = Some (body (answer first)) /\
  process w2 (Some file2) (cache_after first)
  = ([], (answer first, cache_after first)).
Proof.
  intros He Hm Hk Hf Hd Ht He2 first.
  assert (Hc : result (isResume w1 text) = Ret false).
  { unfold isResume. rewrite isResumeDocument_result, Hk, Hf, Hd, Ht. reflexivity. }
  assert (Hfirst : first = (calls (isResume w1 text),
            ({| status := 200; body := notResumeResult w1 file1 |},
             Js.set (sha256_hex text) (notResumeResult w1 file1) cache))).
  { subst first. rewrite (process_miss w1 file1 cache text He Hm), Hc. reflexivity. }
  split; [rewrite Hfirst; reflexivity|].
  split; [rewrite Hfirst; reflexivity|].
  split.
  { rewrite Hfirst. intros k Hin. simpl in Hin.
    destruct Hin as [<-|[<-|[<-|[<-|[<-|[]]]]]]; reflexivity. }
  split; [rewrite Hfirst; reflexivity|].
  split.
  { rewrite Hfirst. unfold cache_after, answer; simpl.
    apply cache_hit_set. reflexivity. }
  subst first. apply (process_replays w1 w2 file1 file2 cache text He He2).
Qed.

(** C7: a second call with the same input, after a first call that got as
    far as a result, returns exactly what the first returned and stored;
    it sends nothing to the external service (neither classification nor
    analysis) and leaves the cache as it was. *)
Theorem second_call_is_served_from_cache
        (w1 w2 : World) (file : File) (cache : Cache) (text : string) :
  extracts w1 file text ->
  extracts w2 file text ->
  let first := process w1 (Some file) cache in
  let second := process w2 (Some file) (cache_after first) in
  sent second = [] /\
  answer second = answer first /\
  cache_hit (cache_after first) (sha256_hex text) = Some (body (answer second)) /\
  cache_after second = cache_after first.
Proof.
  intros H1 H2 first second. subst second first.
  rewrite (process_replays w1 w2 file file cache text H1 H2).
  destruct (process_answers_from_cache w1 file cache text H1) as (v & Ha & Hc).
  unfold sent. simpl fst.
  change (answer ([], (answer (process w1 (Some file) cache),
                       cache_after (process w1 (Some file) cache))))
    with (answer (process w1 (Some file) cache)).
  rewrite Hc, Ha. repeat split; reflexivity.
Qed.

(** C10: when two uploads with different names or declared types extract
    to the same text, the second is answered with the answer of the
    first: its id, filename, fileType and createdAt are the ones recorded
    then, whatever the second upload's name, type and time.  After a miss
    the recorded ones are those of the first upload, unless the analysis
    itself carried a field of that name. *)
Theorem same_text_returns_first_provenance
        (w1 w2 : World) (file1 file2 : File) (cache : Cache) (text : string) :
  extracts w1 file1 text ->
  extracts w2 file2 text ->
  let first := process w1 (Some file1) cache in
  let second := process w2 (Some file2) (cache_after first) in
  answer second = answer first /\
  (forall k, In k ["id"; "filename"; "fileType"; "createdAt"] ->
     Js.prop (body (answer second)) k = Js.prop (body (answer first)) k) /\
  (cache_hit cache (sha256_hex text) = None ->
   forall k v, Js.assoc k (provenance w1 file1) = Some v ->
     Js.prop (body (answer second)) k = Some v \/
     exists a, result (analyze w1 text) = Ret a /\ Js.prop a k <> None).
Proof.
  intros H1 H2 first second.
  assert (Hs : answer second = answer first).
  { subst second first.
    rewrite (process_replays w1 w2 file1 file2 cache text H1 H2).
    reflexivity. }
  split; [exact Hs|]. split; [intros; rewrite Hs; reflexivity|].
  intros Hm k v Hkv. rewrite Hs. subst first.
  rewrite (process_miss w1 file1 cache text H1 Hm).
  assert (Hkeys : k = "id" \/ k = "filename" \/ k = "fileType" \/ k = "createdAt").
  { simpl in Hkv.
    destruct (String.eqb k "id") eqn:E1; [apply String.eqb_eq in E1; auto|].
    destruct (String.eqb k "filename") eqn:E2; [apply String.eqb_eq in E2; auto|].
    destruct (String.eqb k "fileType") eqn:E3; [apply String.eqb_eq in E3; auto|].
    destruct (String.eqb k "createdAt") eqn:E4; [apply String.eqb_eq in E4; auto|].
    discriminate. }
  assert (Hrest : Js.prop (with_provenance w1 file1
                     (analysis_or_fallback JSON_parse env_GEMINI_API_KEY w1 text)) k
                  = Some v \/
                  exists a, result (analyze w1 text) = Ret a /\ Js.prop a k <> None).
  { rewrite with_provenance_prop. unfold analysis_or_fallback. fold analyze.
    destruct (result (analyze w1 text)) as [a|e] eqn:Ea.
    - destruct (Js.prop a k) as [x|] eqn:Ex.
      + right. exists a. split; [reflexivity|]. rewrite Ex. discriminate.
      + left. exact Hkv.
    - left.
      destruct Hkeys as [-> | [-> | [-> | ->]]]; exact Hkv. }
  destruct (result (isResume w1 text)) as [[|]|e]; cbv zeta;
    unfold answer; simpl fst; simpl snd; simpl body; try exact Hrest.
  left. destruct Hkeys as [-> | [-> | [-> | ->]]]; exact Hkv.
Qed.

End Pipeline.

(* ================================================================== *)
(** * GET /api/resume/analysis/:id *)

Section GetAnalysis.

Import Shape.
Local Open Scope Z_scope.

Lemma decimal_digit_value (c : ascii) :
  is_decimal_digit c = true ->
  JsString.is_ws c = false /\
  exists d, digit_value c = Some d /\ (d <? 10) = true.
Proof.
  destruct c as [[] [] [] [] [] [] [] []]; simpl; try discriminate;
    intros _; (split; [reflexivity | eexists; split; reflexivity]).
Qed.

Lemma digits_some (radix a : Z) (s : string) :
  exists n, digits radix (Some a) s = Some n.
Proof.
  revert a. induction s as [|c r IH]; intros a; simpl; [eauto|].
  destruct (digit_value c) as [d|]; [|eauto].
  destruct (d <? radix); [apply IH | eauto].
Qed.

(** An id made of decimal digits is read as a number. *)
Lemma parseInt_numeric (s : string) :
  numeric_id s = true -> exists n, parseInt s = Some n.
Proof.
  unfold numeric_id. destruct s as [|c r]; [discriminate|].
  simpl. intros H. apply andb_prop in H. destruct H as [Hc Hr].
  destruct (decimal_digit_value c Hc) as (Hws & d & Hd & Hlt).
  unfold parseInt. simpl JsString.trimStart. rewrite Hws.
  assert (Hsign : (match String c r with
                   | String "-" r0 => (-1, r0)
                   | String "+" r0 => (1, r0)
                   | _ => (1, String c r)
                   end) = (1, String c r)).
  { destruct c as [[] [] [] [] [] [] [] []]; try discriminate Hc; reflexivity. }
  rewrite Hsign.
  assert (Hx : prefix "0x" (String c r) || prefix "0X" (String c r) = false).
  { destruct r as [|c' r']; simpl.
    - destruct c as [[] [] [] [] [] [] [] []]; reflexivity.
    - simpl in Hr. apply andb_prop in Hr. destruct Hr as [Hc' _].
      destruct c' as [[] [] [] [] [] [] [] []]; try discriminate Hc';
        destruct c as [[] [] [] [] [] [] [] []]; reflexivity. }
  rewrite Hx. simpl digits. rewrite Hd, Hlt.
  destruct (digits_some 10 d r) as (n & Hn). rewrite Hn.
  eexists; reflexivity.
Qed.

(** C8, as the code has it: the route answers 400 exactly when [parseInt]
    reads no number from the id, which never happens for an id made of
    decimal digits; an id whose number the store does not have is
    answered 404, and one it has is answered 200 with the stored
    analysis. *)
Theorem get_analysis_statuses (w : World) (id_param : string) :
  (parseInt id_param = None ->
   get_analysis w id_param = message_response 400 "Invalid ID format") /\
  (numeric_id id_param = true -> status (get_analysis w id_param) <> 400) /\
  (forall id, parseInt id_param = Some id ->
     getResumeAnalysis w id = Ret None ->
     get_analysis w id_param = message_response 404 "Analysis not found") /\
  (forall id a, parseInt id_param = Some id ->
     getResumeAnalysis w id = Ret (Some a) -> Js.truthy a = true ->
     get_analysis w id_param = {| status := 200; body := a |}).
Proof.
  unfold get_analysis. repeat split.
  - intros ->. reflexivity.
  - intros Hn. destruct (parseInt_numeric id_param Hn) as (n & ->).
    destruct (getResumeAnalysis w n) as [[a|]|e]; simpl;
      [destruct (Js.truthy a)|..]; simpl; discriminate.
  - intros id -> ->. reflexivity.
  - intros id a -> -> ->. reflexivity.
Qed.

End GetAnalysis.

(* ================================================================== *)
(** * Runs *)

Module Runs.

Import Shape Sample.
Local Open Scope Z_scope.

Definition resume_text : string := "Jane Doe - Software Engineer - 2015-2024".

Definition process := post_analyze text_key parse_braces key.

(** The service says yes, then answers the analysis with [{}]. *)
Definition empty_object_world : World :=
  world (answers "yes") (answers "{}") (Ret resume_text).

(** The service says yes, then is unavailable. *)
Definition unavailable_world : World :=
  world (answers "yes") unavailable (Ret resume_text).

(** The service says no. *)
Definition not_resume_world : World :=
  world (answers " NO ") network_down (Ret resume_text).

(** The extracted text is three spaces. *)
Definition blank_world : World :=
  world (answers "yes") network_down (Ret "   ").

Definition stored_analysis : json :=
  JObj (("id", JNum 12) :: analysis_literal 81 "k" "e" "s" "d" "f" ["one"]).

Definition store_with_12 : World :=
  with_store (fun id => if id =? 12 then Ret (Some stored_analysis) else Ret None).

Definition partial_upstream : json :=
  JObj [ ("overallScore", JNum 140);
         ("feedback", JObj [ ("keywords", JStr "Good keywords."); ("skills", JStr "") ]) ].

End Runs.

Import Shape Sample Runs.

(** C1, refuted as stated: the text is not empty, the service answers the
    analysis with [{}], and the 200 answer carries none of the six
    scores. *)
Lemma empty_object_answer_lacks_scores :
  let run := process empty_object_world (Some cv_pdf) [] in
  extracts empty_object_world cv_pdf resume_text /\
  JsString.nonempty resume_text = true /\
  status (answer run) = 200%Z /\
  scores_present (body (answer run)) = false /\
  AnalysisResult_invariants (body (answer run)) = false.
Proof. vm_compute. repeat split; reflexivity. Qed.

Lemma fresh_result_shape_witness :
  let run := process empty_object_world (Some cv_pdf) [] in
  status (answer run) = 200%Z /\
  feedback_truthy (body (answer run)) = true /\
  suggestions_nonempty (body (answer run)) = true /\
  Js.prop (body (answer run)) "overallScore" = None.
Proof.
  destruct (fresh_result_shape text_key parse_braces key
              empty_object_world cv_pdf [] resume_text eq_refl eq_refl)
    as (H1 & H2 & H3 & _ & _ & _ & H7).
  split; [exact H1|]. split; [exact H2|]. split; [exact H3|].
  destruct (H7 eq_refl eq_refl eq_refl 200%Z (Ret (gemini_reply "{}")) (JObj [])
               (JObj (filled (JObj []))) eq_refl eq_refl eq_refl) as (_ & Hs).
  exact (Hs "overallScore" (or_introl eq_refl)).
Defined.

(** C2, on the code: an upload whose text is three spaces, with a
    credential configured.  The classification request is sent, the
    analyzer's "text is empty" error is caught by the route, and the answer
    is 200 with the technical fallback, stored in the cache. *)
Theorem blank_text_is_answered_with_the_fallback :
  let run := process blank_world (Some cv_pdf) [] in
  extracts blank_world cv_pdf "   " /\
  blank "   " = true /\
  result (analyzeResumeWithGemini parse_braces key blank_world "   ")
  = Throw (ErrorObj EMPTY_TEXT) /\
  sent run = [classify_request "   "] /\
  answer run = {| status := 200;
                  body := with_provenance blank_world cv_pdf technical_fallback |} /\
  cache_hit (cache_after run) (text_key "   ") = Some (body (answer run)).
Proof. vm_compute. repeat split; reflexivity. Qed.

Lemma technical_fallback_witness :
  let run := process unavailable_world (Some cv_pdf) [] in
  status (answer run) = 200%Z /\
  all_scores (body (answer run)) 70 = true /\
  cache_hit (cache_after run) (text_key resume_text) = Some (body (answer run)).
Proof.
  destruct (technical_fallback_is_returned_and_cached text_key parse_braces key
              unavailable_world cv_pdf [] resume_text
              (ErrorObj (service_error 503))
              eq_refl eq_refl eq_refl eq_refl)
    as (H1 & H2 & _ & _ & H5).
  unfold process. cbv zeta.
  split; [rewrite H1; reflexivity|]. exact (conj H2 H5).
Defined.

Lemma normalisation_witness :
  exists out,
    fillSectionDefaults partial_upstream = Ret out /\
    Js.prop out "overallScore" = Some (JNum 140) /\
    feedback_field out "keywords" = Some (JStr "Good keywords.") /\
    feedback_field out "skills" = Some (JStr "No feedback provided.") /\
    feedback_field out "education" = Some (JStr "No feedback provided.") /\
    Js.prop out "improvementSuggestions" = Some (JArr [JStr "No suggestions provided."]).
Proof.
  destruct (normalisation_defaults_and_passthrough partial_upstream)
    as (out & Hf & Hs & _ & Hfb & _ & Hsug); [discriminate|].
  exists out. split; [exact Hf|].
  split; [rewrite Hs; [reflexivity | simpl; auto]|].
  split; [apply (Hfb "keywords"); [simpl; auto | reflexivity | reflexivity]|].
  split; [apply (Hfb "skills"); [simpl; auto | right; reflexivity]|].
  split; [apply (Hfb "education"); [simpl; auto 6 | left; reflexivity]|].
  apply Hsug. left; reflexivity.
Defined.

Lemma not_a_resume_witness :
  let first := process not_resume_world (Some cv_pdf) [] in
  all_scores (body (answer first)) 0 = true /\
  process (later_world (Ret resume_text)) (Some cv_docx) (cache_after first)
  = ([], (answer first, cache_after first)).
Proof.
  destruct (not_a_resume_is_cached_and_replayed text_key parse_braces key
              not_resume_world (later_world (Ret resume_text)) cv_pdf cv_docx []
              resume_text 200 (gemini_reply " NO ") " NO "
              eq_refl eq_refl eq_refl eq_refl eq_refl eq_refl eq_refl)
    as (_ & H2 & _ & _ & _ & H6).
  exact (conj H2 H6).
Defined.

Lemma second_call_witness :
  let first := process empty_object_world (Some cv_pdf) [] in
  let second := process (later_world (Ret resume_text)) (Some cv_pdf) (cache_after first) in
  sent second = [] /\ answer second = answer first.
Proof.
  destruct (second_call_is_served_from_cache text_key parse_braces key
              empty_object_world (later_world (Ret resume_text)) cv_pdf []
              resume_text eq_refl eq_refl)
    as (H1 & H2 & _).
  exact (conj H1 H2).
Defined.

Lemma first_provenance_witness :
  let first := process unavailable_world (Some cv_pdf) [] in
  let second := process (later_world (Ret resume_text)) (Some cv_docx) (cache_after first) in
  answer second = answer first /\
  Js.prop (body (answer second)) "filename" = Some (JStr "cv.pdf").
Proof.
  destruct (same_text_returns_first_provenance text_key parse_braces key
              unavailable_world (later_world (Ret resume_text)) cv_pdf cv_docx []
              resume_text eq_refl eq_refl)
    as (H1 & _ & H3).
  split; [exact H1|].
  destruct (H3 eq_refl "filename" (JStr "cv.pdf") eq_refl) as [H|(a & Ha & _)];
    [exact H | discriminate Ha].
Defined.

(** C8, refuted as stated: [12abc] is not a numeric id, and the route
    answers it 200 with the analysis stored under 12. *)
Lemma non_numeric_id_is_not_rejected :
  numeric_id "12abc" = false /\
  parseInt "12abc" = Some 12%Z /\
  get_analysis store_with_12 "12abc" = {| status := 200; body := stored_analysis |} /\
  status (get_analysis (with_store no_store) "12abc") = 404%Z.
Proof. vm_compute. repeat split; reflexivity. Qed.

Lemma get_analysis_witness :
  get_analysis store_with_12 "abc" = message_response 400 "Invalid ID format" /\
  status (get_analysis store_with_12 "12") <> 400%Z /\
  get_analysis store_with_12 "13" = message_response 404 "Analysis not found" /\
  get_analysis store_with_12 "12" = {| status := 200; body := stored_analysis |}.
Proof.
  split; [apply (get_analysis_statuses store_with_12 "abc"); reflexivity|].
  split; [apply (get_analysis_statuses store_with_12 "12"); reflexivity|].
  split; [apply (get_analysis_statuses store_with_12 "13") with (id := 13%Z);
          reflexivity|].
  apply (get_analysis_statuses store_with_12 "12") with (id := 12%Z); reflexivity.
Defined.

(* ================================================================== *)
(** * Further properties of the pipeline *)

Section PipelineMore.

Local Open Scope Z_scope.

Variable sha256_hex : string -> string.
Variable JSON_parse : string -> option json.
Variable env_GEMINI_API_KEY : option string.

Local Abbreviation process := (post_analyze sha256_hex JSON_parse env_GEMINI_API_KEY).
Local Abbreviation isResume := (isResumeDocument env_GEMINI_API_KEY).
Local Abbreviation analyze := (analyzeResumeWithGemini JSON_parse env_GEMINI_API_KEY).





(** Every request whose text is extracted is answered 200, and its answer
    is what the cache holds for that text afterwards: every path ends in a
    cached, returned result. *)
Theorem extracted_upload_is_answered_and_cached
        (w : World) (file : File) (cache : Cache) (text : string) :
  extracts w file text ->
  let run := process w (Some file) cache in
  status (answer run) = 200 /\
  cache_hit (cache_after run) (sha256_hex text) = Some (body (answer run)).
Proof.
  intros He run. subst run.
  destruct (process_answers_from_cache sha256_hex JSON_parse env_GEMINI_API_KEY
              w file cache text He) as (v & Ha & Hc).
  rewrite Hc, Ha. split; reflexivity.
Qed.


(** A request writes at most the entry of its own text: every other key
    reads the same before and after. *)
Theorem other_entries_are_untouched
        (w : World) (file : File) (cache : Cache) (text h : string) :
  extracts w file text ->
  h <> sha256_hex text ->
  cache_hit (cache_after (process w (Some file) cache)) h = cache_hit cache h.
Proof.
  intros Ex Hne.
  destruct (cache_hit cache (sha256_hex text)) as [c|] eqn:Eh.
  - rewrite (process_hit sha256_hex JSON_parse env_GEMINI_API_KEY
               w file cache text c Ex Eh). reflexivity.
  - destruct (process_miss_shape sha256_hex JSON_parse env_GEMINI_API_KEY
                w file cache text Ex Eh) as (fs & _ & Hc).
    rewrite Hc.
    apply cache_hit_set_other. exact Hne.
Qed.

(** What a request sends to the external service: nothing, the
    classification request alone, or the classification request followed
    by the analysis request.  Without a credential it sends nothing; the
    analysis request goes out only when the classifier returned [true] and
    the text is not blank. *)
Theorem requests_sent (w : World) (file : File) (cache : Cache) (text : string) :
  extracts w file text ->
  let run := process w (Some file) cache in
  (sent run = [] \/
   sent run = [classify_request text] \/
   sent run = [classify_request text; analyze_request text]) /\
  (key_missing env_GEMINI_API_KEY = true -> sent run = []) /\
  (In (analyze_request text) (sent run) ->
   result (isResume w text) = Ret true /\ blank text = false).
Proof.
  intros Ex run. subst run.
  assert (Hne : classify_request text <> analyze_request text) by discriminate.
  destruct (cache_hit cache (sha256_hex text)) as [c|] eqn:Eh.
  - rewrite (process_hit sha256_hex JSON_parse env_GEMINI_API_KEY
               w file cache text c Ex Eh).
    split; [now left|]. split; [reflexivity | intros []].
  -
    rewrite (process_miss sha256_hex JSON_parse env_GEMINI_API_KEY
               w file cache text Ex Eh).
    pose proof (isResumeDocument_result env_GEMINI_API_KEY w text) as Hr.
    pose proof (isResumeDocument_calls env_GEMINI_API_KEY w text) as Hc.
    pose proof (analyze_calls JSON_parse env_GEMINI_API_KEY w text) as Ha.
    rewrite Hr. rewrite Hc, Ha.
    destruct (key_missing env_GEMINI_API_KEY) eqn:Ek.
    + rewrite orb_true_r. cbv zeta. unfold sent; simpl.
      split; [now left|]. split; [reflexivity | intros []].
    + rewrite orb_false_r.
      match goal with
      | |- context [Ret ?b] => destruct b eqn:Eb
      end; cbv zeta; unfold sent; simpl fst.
      * destruct (blank text) eqn:Ebl; simpl.
        -- split; [right; now left|]. split; [discriminate|].
           intros [H|[]]. congruence.
        -- split; [right; now right|]. split; [discriminate|].
           intros _. split; reflexivity.
      * split; [right; now left|]. split; [discriminate|].
        intros [H|[]]. congruence.
Qed.

(** Without a credential nothing is sent: a fresh upload with a text that
    is not blank is answered with the fixed score-75 analysis under this
    upload's own provenance. *)
Theorem no_credential_pipeline
        (w : World) (file : File) (cache : Cache) (text : string) :
  key_missing env_GEMINI_API_KEY = true ->
  extracts w file text ->
  blank text = false ->
  cache_hit cache (sha256_hex text) = None ->
  let run := process w (Some file) cache in
  sent run = [] /\
  answer run = {| status := 200; body := with_provenance w file no_key_analysis |} /\
  Shape.all_scores (body (answer run)) 75 = true /\
  Js.prop (body (answer run)) "id" = Some (JNum (Date_now w)) /\
  Js.prop (body (answer run)) "filename" = Some (JStr (originalname file)) /\
  Js.prop (body (answer run)) "fileType" = Some (JStr (mimetype file)) /\
  Js.prop (body (answer run)) "createdAt" = Some (JStr (Date_toISOString w)).
Proof.
  intros Hk Ex Hb Hm run. subst run.
  rewrite (process_miss sha256_hex JSON_parse env_GEMINI_API_KEY
             w file cache text Ex Hm).
  rewrite isResumeDocument_result, Hk.
  rewrite isResumeDocument_calls, Hk.
  unfold analysis_or_fallback.
  rewrite (analyze_no_key JSON_parse env_GEMINI_API_KEY w text Hb Hk).
  cbv zeta. repeat split; reflexivity.
Qed.

(** A blank text is not rejected: on a miss the request is answered 200
    with the NotResume result or with the technical fallback, never with
    an analysis of the service, whose analysis request is not sent; the
    answer is cached. *)
Theorem blank_text_is_not_rejected
        (w : World) (file : File) (cache : Cache) (text : string) :
  extracts w file text ->
  blank text = true ->
  cache_hit cache (sha256_hex text) = None ->
  let run := process w (Some file) cache in
  status (answer run) = 200 /\
  (body (answer run) = notResumeResult w file \/
   body (answer run) = with_provenance w file technical_fallback) /\
  ~ In (analyze_request text) (sent run) /\
  cache_hit (cache_after run) (sha256_hex text) = Some (body (answer run)).
Proof.
  intros Ex Hb Hm run. subst run.
  rewrite (process_miss sha256_hex JSON_parse env_GEMINI_API_KEY
             w file cache text Ex Hm).
  unfold analysis_or_fallback.
  pose proof (isResumeDocument_calls env_GEMINI_API_KEY w text) as Hc.
  rewrite (analyze_blank JSON_parse env_GEMINI_API_KEY w text Hb).
  assert (Hno : ~ In (analyze_request text)
                  (calls (isResumeDocument env_GEMINI_API_KEY w text))).
  { rewrite Hc. destruct (key_missing env_GEMINI_API_KEY); simpl.
    - intros [].
    - intros [H|[]]. discriminate H. }
  destruct (result (isResumeDocument env_GEMINI_API_KEY w text)) as [[|]|e];
    cbv zeta; unfold answer, sent, cache_after, calls; simpl fst; simpl snd;
    simpl body; rewrite ?app_nil_r;
    (split; [reflexivity|]); (split; [auto|]);
    (split; [exact Hno|]); apply cache_hit_set; reflexivity.
Qed.

(** A field of the analysis takes precedence over the provenance field of
    the same name: on the success path the answer carries, under every
    name, the value the analysis has there, and the upload's id, filename,
    fileType and createdAt only where the analysis has none. *)
Theorem analysis_fields_override_provenance
        (w : World) (file : File) (cache : Cache) (text : string) (a : json) :
  extracts w file text ->
  cache_hit cache (sha256_hex text) = None ->
  result (isResume w text) = Ret true ->
  result (analyze w text) = Ret a ->
  forall k,
    Js.prop (body (answer (process w (Some file) cache))) k =
    match Js.prop a k with
    | Some v => Some v
    | None => Js.assoc k (provenance w file)
    end.
Proof.
  intros Ex Hm Hc Ha k.
  rewrite (process_miss sha256_hex JSON_parse env_GEMINI_API_KEY
             w file cache text Ex Hm).
  rewrite Hc. unfold analysis_or_fallback. rewrite Ha.
  cbv zeta. unfold answer; simpl fst; simpl body.
  apply with_provenance_prop.
Qed.

End PipelineMore.

(* ================================================================== *)
(** * The shape of everything the cache serves *)

Section CacheShape.

Import Shape.
Local Open Scope Z_scope.

Variable sha256_hex : string -> string.
Variable JSON_parse : string -> option json.
Variable env_GEMINI_API_KEY : option string.

Local Abbreviation process := (post_analyze sha256_hex JSON_parse env_GEMINI_API_KEY).

Lemma analysis_or_fallback_shape (w : World) (file : File) (text : string) :
  answer_shape
    (with_provenance w file
       (analysis_or_fallback JSON_parse env_GEMINI_API_KEY w text)) = true.
Proof.
  unfold analysis_or_fallback.
  destruct (result (analyzeResumeWithGemini JSON_parse env_GEMINI_API_KEY w text))
    as [a|e] eqn:Ea; [|reflexivity].
  destruct (analyze_returns JSON_parse env_GEMINI_API_KEY w text a Ea)
    as [->|(st & j & upstream & _ & _ & Hfill)]; [reflexivity|].
  apply fillSectionDefaults_object in Hfill. subst a.
  unfold answer_shape.
  rewrite normalised_feedback_truthy, normalised_suggestions_nonempty.
  reflexivity.
Qed.

Lemma miss_body_shape (w : World) (file : File) (cache : Cache) (text : string) :
  extracts w file text ->
  cache_hit cache (sha256_hex text) = None ->
  exists r,
    answer_shape r = true /\ Js.truthy r = true /\
    answer (process w (Some file) cache) = {| status := 200; body := r |} /\
    cache_after (process w (Some file) cache) = Js.set (sha256_hex text) r cache.
Proof.
  intros Ex Hm.
  rewrite (process_miss sha256_hex JSON_parse env_GEMINI_API_KEY w file cache text Ex Hm).
  pose proof (analysis_or_fallback_shape w file text) as Hs.
  destruct (result (isResumeDocument env_GEMINI_API_KEY w text)) as [[|]|e];
    cbv zeta; eexists; (split; [|split; [|split; reflexivity]]);
    first [exact Hs | reflexivity].
Qed.

(** The empty cache serves nothing, so it is in shape. *)
Lemma cache_ok_empty : cache_ok [].
Proof. intros h v H. discriminate H. Qed.

(** The route keeps the cache in shape, and from a cache in shape every
    200 answer, served from the cache or computed, has filled feedback
    sections and at least one suggestion. *)
Theorem cache_shape_is_kept (w : World) (file : option File) (cache : Cache) :
  cache_ok cache ->
  let run := process w file cache in
  cache_ok (cache_after run) /\
  (status (answer run) = 200 -> answer_shape (body (answer run)) = true).
Proof.
  intros Hok run. subst run. destruct file as [f|].
  - destruct (extractTextFromDocument w (buffer f) (mimetype f)) as [text|e] eqn:Ex.
    + destruct (cache_hit cache (sha256_hex text)) as [c|] eqn:Eh.
      * rewrite (process_hit sha256_hex JSON_parse env_GEMINI_API_KEY
                   w f cache text c Ex Eh).
        split; [exact Hok|]. intros _. exact (Hok _ _ Eh).
      * destruct (miss_body_shape w f cache text Ex Eh) as (r & Hs & Ht & Ha & Hc).
        rewrite Ha, Hc. split; [|intros _; exact Hs].
        intros h v Hh.
        destruct (String.eqb h (sha256_hex text)) eqn:E.
        -- apply String.eqb_eq in E. subst h.
           rewrite (cache_hit_set cache _ r Ht) in Hh.
           injection Hh as <-. exact Hs.
        -- apply String.eqb_neq in E.
           rewrite (cache_hit_set_other cache _ h r E) in Hh.
           exact (Hok _ _ Hh).
    + unfold post_analyze, post_analyze_try. rewrite Ex.
      split; [exact Hok | discriminate].
  - split; [exact Hok | discriminate].
Qed.

End CacheShape.

(* ================================================================== *)
(** * More on the normaliser and on the GET route *)

Section NormaliserMore.

Import Shape.
Local Open Scope Z_scope.

Lemma or_some_or (x : option json) (d : json) :
  Js.truthy d = true -> Js.or (Some (Js.or x d)) d = Js.or x d.
Proof.
  intros Hd. unfold Js.or at 1. rewrite (or_truthy x d Hd). reflexivity.
Qed.

Lemma suggestions_or_default_twice (v : option json) :
  suggestions_or_default (Some (suggestions_or_default v)) = suggestions_or_default v.
Proof. destruct v as [[| | | |[|x r]|]|]; reflexivity. Qed.

Lemma filled_twice (upstream : json) :
  filled (JObj (filled upstream)) = filled upstream.
Proof.
  assert (Hs : Js.prop (JObj (filled upstream)) "improvementSuggestions"
               = Some (suggestions_or_default
                         (Js.prop upstream "improvementSuggestions"))).
  { apply filled_suggestions. }
  assert (Hfb : Js.prop (JObj (filled upstream)) "feedback"
                = Some (JObj
                    (map (fun k => (k, Js.or (Js.opt_prop (Js.prop upstream "feedback") k)
                                              NO_FEEDBACK)) feedback_keys))).
  { unfold Js.prop at 1. simpl Js.own_entries. unfold filled.
    rewrite JsFacts.assoc_set_other by discriminate.
    apply JsFacts.assoc_set_same. }
  unfold filled at 1. cbv zeta.
  rewrite JsFacts.spread_nil, Hs, Hfb, suggestions_or_default_twice.
  set (fb := Js.prop upstream "feedback") in *.
  cbn [Js.opt_prop Js.prop Js.own_entries Js.assoc String.eqb Ascii.eqb Bool.eqb
       map feedback_keys].
  rewrite !or_some_or by reflexivity.
  rewrite (JsFacts.set_same_value "feedback").
  - apply JsFacts.set_same_value. exact Hs.
  - exact Hfb.
Qed.

(** Normalising twice is normalising once: what [fillSectionDefaults]
    returns is a fixed point of it, so an analysis that went through the
    analyzer can be normalised again without change. *)
Theorem fillSectionDefaults_idempotent (upstream out : json) :
  fillSectionDefaults upstream = Ret out ->
  fillSectionDefaults out = Ret out.
Proof.
  intros H. apply fillSectionDefaults_object in H. subst out.
  rewrite fillSectionDefaults_filled by discriminate.
  rewrite filled_twice. reflexivity.
Qed.

(** [GET /api/resume/analysis/:id] answers 200, 400 or 404 and nothing
    else, whatever the store does; when the store throws, the answer is 200
    with the demo analysis, which carries the number read from the id and
    satisfies the AnalysisResult invariants. *)
Theorem get_analysis_degrades_to_demo (w : World) (id_param : string) :
  (status (get_analysis w id_param) = 200 \/
   status (get_analysis w id_param) = 400 \/
   status (get_analysis w id_param) = 404) /\
  (forall id e, parseInt id_param = Some id ->
     getResumeAnalysis w id = Throw e ->
     get_analysis w id_param = {| status := 200; body := demo_analysis w id |} /\
     Js.prop (demo_analysis w id) "id" = Some (JNum id) /\
     AnalysisResult_invariants (demo_analysis w id) = true).
Proof.
  unfold get_analysis. split.
  - destruct (parseInt id_param) as [id|]; [|right; left; reflexivity].
    destruct (getResumeAnalysis w id) as [[a|]|e]; simpl; auto.
    destruct (Js.truthy a); simpl; auto.
  - intros id e -> ->. repeat split; reflexivity.
Qed.

End NormaliserMore.

(* ================================================================== *)
(** * Trimming, code fences and the classifier's answer *)

Section Strings.

Import Shape.

Lemma string_app_assoc (a b c : string) : ((a ++ b) ++ c = a ++ (b ++ c))%string.
Proof. induction a as [|x a IH]; simpl; [reflexivity | now rewrite IH]. Qed.

Lemma trimStart_all_ws (l : string) : all_ws l = true -> JsString.trimStart l = "".
Proof.
  induction l as [|c l IH]; simpl; [reflexivity|].
  intros H. apply andb_prop in H. destruct H as [Hc Hl].
  rewrite Hc. exact (IH Hl).
Qed.

Lemma trimStart_app_ws (l s : string) :
  all_ws l = true -> JsString.trimStart (l ++ s) = JsString.trimStart s.
Proof.
  induction l as [|c l IH]; simpl; [reflexivity|].
  intros H. apply andb_prop in H. destruct H as [Hc Hl].
  rewrite Hc. exact (IH Hl).
Qed.

Lemma trimStart_app (s t : string) :
  JsString.trimStart (s ++ t) =
  if all_ws s then JsString.trimStart t else (JsString.trimStart s ++ t)%string.
Proof.
  induction s as [|c s IH]; simpl; [reflexivity|].
  destruct (JsString.is_ws c); simpl; [exact IH | reflexivity].
Qed.

Lemma trimStart_idempotent (s : string) :
  JsString.trimStart (JsString.trimStart s) = JsString.trimStart s.
Proof.
  induction s as [|c s IH]; simpl; [reflexivity|].
  destruct (JsString.is_ws c) eqn:E; [exact IH|]. simpl. rewrite E. reflexivity.
Qed.

Lemma trimEnd_keeps_head (c : ascii) (s : string) :
  JsString.is_ws c = false ->
  JsString.trimEnd (String c s) = String c (JsString.trimEnd s).
Proof.
  intros H. simpl. rewrite H. destruct (JsString.trimEnd s); reflexivity.
Qed.

Lemma trimEnd_all_ws (r : string) : all_ws r = true -> JsString.trimEnd r = "".
Proof.
  induction r as [|c r IH]; simpl; [reflexivity|].
  intros H. apply andb_prop in H. destruct H as [Hc Hr].
  rewrite (IH Hr), Hc. reflexivity.
Qed.

Lemma trimEnd_app_ws (s r : string) :
  all_ws r = true -> JsString.trimEnd (s ++ r) = JsString.trimEnd s.
Proof.
  intros Hr. induction s as [|c s IH]; simpl.
  - exact (trimEnd_all_ws r Hr).
  - rewrite IH. reflexivity.
Qed.

Lemma trim_app_ws (s r : string) :
  all_ws r = true -> JsString.trim (s ++ r) = JsString.trim s.
Proof.
  intros Hr. unfold JsString.trim. rewrite trimStart_app.
  destruct (all_ws s) eqn:Es.
  - rewrite (trimStart_all_ws r Hr), (trimStart_all_ws s Es). reflexivity.
  - apply trimEnd_app_ws. exact Hr.
Qed.

(** White space around a text does not survive [trim]. *)
Lemma trim_padding (l s r : string) :
  all_ws l = true -> all_ws r = true ->
  JsString.trim (l ++ s ++ r) = JsString.trim s.
Proof.
  intros Hl Hr. unfold JsString.trim at 1. rewrite (trimStart_app_ws l _ Hl).
  exact (trim_app_ws s r Hr).
Qed.

Lemma string_length_app (a b : string) :
  String.length (a ++ b) = String.length a + String.length b.
Proof. induction a as [|x a IH]; simpl; [reflexivity | now rewrite IH]. Qed.

Lemma strip_fence_end_app (x : string) :
  JsString.strip_fence_end (x ++ "```") = x.
Proof.
  induction x as [|c x IH]; [reflexivity|].
  change (String c x ++ "```")%string with (String c (x ++ "```")).
  cbn [JsString.strip_fence_end].
  assert (E : (String c (x ++ "```") =? "```") = false).
  { apply String.eqb_neq. intros H.
    apply (f_equal String.length) in H. simpl in H.
    rewrite string_length_app in H. simpl in H. lia. }
  rewrite E, IH. reflexivity.
Qed.

Lemma prefix_cons (a b : ascii) (s t : string) :
  prefix (String a s) (String b t) = if ascii_dec a b then prefix s t else false.
Proof. reflexivity. Qed.

Lemma prefix_nil_l (s : string) : prefix "" s = true.
Proof. destruct s; reflexivity. Qed.

Lemma fence_prefix (s : string) : prefix "```" ("```" ++ s) = true.
Proof.
  cbn [append]. rewrite !prefix_cons.
  destruct (ascii_dec "`" "`") as [_|n]; [|exfalso; exact (n eq_refl)].
  apply prefix_nil_l.
Qed.

Ltac head_char H :=
  rewrite prefix_cons in H;
  match type of H with
  | (if ?d then _ else _) = _ => destruct d as [?E|?E]; [|discriminate H]
  end.

Lemma no_fence_before_newline (x y : string) :
  prefix "```" x = false -> prefix "```" (x ++ JsString.LF ++ y) = false.
Proof.
  intros H.
  destruct (prefix "```" (x ++ JsString.LF ++ y)) eqn:E; [exfalso|reflexivity].
  destruct x as [|a [|b [|c x]]]; cbn [append] in E.
  - discriminate E.
  - head_char E. discriminate E.
  - head_char E. head_char E. discriminate E.
  - head_char E. head_char E. head_char E. subst a b c.
    change (prefix "```" ("```" ++ x) = false) in H.
    rewrite fence_prefix in H. discriminate H.
Qed.

(** An answer wrapped in a [json] code fence is unwrapped: what goes to
    [JSON.parse] is the trimmed inside of the fence, provided the inside
    does not itself begin with a fence. *)
Theorem fenced_answer_is_unwrapped (inside : string) :
  prefix "```" (JsString.trimStart inside) = false ->
  strip_code_fence ("```json" ++ JsString.LF ++ inside ++ JsString.LF ++ "```")
  = JsString.trim inside.
Proof.
  intros Hno. unfold strip_code_fence, JsString.strip_json_fence.
  change (prefix "```json"
            (JsString.toLowerCase
               (substring 0 7 ("```json" ++ JsString.LF ++ inside ++ JsString.LF ++ "```"))))
    with true.
  cbv iota.
  change (JsString.drop 7 ("```json" ++ JsString.LF ++ inside ++ JsString.LF ++ "```"))
    with (JsString.LF ++ (inside ++ JsString.LF ++ "```"))%string.
  rewrite (trimStart_app_ws JsString.LF _ eq_refl).
  rewrite trimStart_app.
  destruct (all_ws inside) eqn:Ews.
  - change (JsString.trimStart (JsString.LF ++ "```")) with "```".
    unfold JsString.trim. rewrite (trimStart_all_ws inside Ews). reflexivity.
  - unfold JsString.strip_fence_start.
    rewrite (no_fence_before_newline _ "```" Hno).
    rewrite <- string_app_assoc, strip_fence_end_app.
    rewrite (trim_app_ws _ JsString.LF eq_refl).
    unfold JsString.trim. rewrite trimStart_idempotent. reflexivity.
Qed.







End Strings.

(* ================================================================== *)
(** * What the classifier makes of an answer *)

Section ClassifierMore.

Import Shape.

Variable env_GEMINI_API_KEY : option string.

(** White space around the service's answer is ignored: a padded answer is
    classified as the bare answer is. *)
Theorem classifier_ignores_padding
        (w : World) (text : string) (st : Z) (data : json) (l t r : string) :
  key_missing env_GEMINI_API_KEY = false ->
  fetch w (classify_request text) = FetchResponse true st (Ret data) ->
  candidate_text data = JStr (l ++ t ++ r) ->
  all_ws l = true -> all_ws r = true ->
  result (isResumeDocument env_GEMINI_API_KEY w text) =
  Ret (JsString.startsWith (JsString.toLowerCase (JsString.trim t)) "yes").
Proof.
  intros Hk Hf Hd Hl Hr.
  rewrite isResumeDocument_result, Hk, Hf, Hd, (trim_padding l t r Hl Hr).
  reflexivity.
Qed.

Lemma lower_not_ws (a c : ascii) :
  JsString.lower_char a = c -> JsString.is_ws c = false -> JsString.is_ws a = false.
Proof.
  intros <-.
  destruct a as [[] [] [] [] [] [] [] []]; intros H; try reflexivity;
    vm_compute in H; discriminate H.
Qed.

(** An answer that starts, after white space, with the word [yes] in any
    letter case is accepted, whatever follows the word. *)
Theorem yes_in_any_case_is_accepted
        (w : World) (text : string) (st : Z) (data : json) (l y rest : string) :
  key_missing env_GEMINI_API_KEY = false ->
  fetch w (classify_request text) = FetchResponse true st (Ret data) ->
  candidate_text data = JStr (l ++ y ++ rest) ->
  all_ws l = true ->
  JsString.toLowerCase y = "yes" ->
  result (isResumeDocument env_GEMINI_API_KEY w text) = Ret true.
Proof.
  intros Hk Hf Hd Hl Hy.
  rewrite isResumeDocument_result, Hk, Hf, Hd. f_equal.
  unfold JsString.trim. rewrite (trimStart_app_ws l _ Hl).
  destruct y as [|a [|b [|c [|d y]]]]; try discriminate Hy.
  simpl in Hy. injection Hy as Ha Hb Hc.
  pose proof (lower_not_ws a _ Ha eq_refl) as Wa.
  pose proof (lower_not_ws b _ Hb eq_refl) as Wb.
  pose proof (lower_not_ws c _ Hc eq_refl) as Wc.
  cbn [append JsString.trimStart]. rewrite Wa.
  rewrite !trimEnd_keeps_head by assumption.
  cbn [JsString.toLowerCase]. rewrite Ha, Hb, Hc.
  unfold JsString.startsWith. rewrite !prefix_cons.
  destruct (ascii_dec "y" "y") as [_|n]; [|exfalso; exact (n eq_refl)].
  destruct (ascii_dec "e" "e") as [_|n]; [|exfalso; exact (n eq_refl)].
  destruct (ascii_dec "s" "s") as [_|n]; [|exfalso; exact (n eq_refl)].
  apply prefix_nil_l.
Qed.

End ClassifierMore.

(* ================================================================== *)
(** * Decimal ids *)

Section DecimalIds.

Import Shape.
Local Open Scope Z_scope.








End DecimalIds.

(* ================================================================== *)
(** * How the analyzer fails *)

Section AnalyzerMore.

Variable JSON_parse : string -> option json.
Variable env_GEMINI_API_KEY : option string.

Local Abbreviation analyze := (analyzeResumeWithGemini JSON_parse env_GEMINI_API_KEY).

(** With a credential and a text that is not blank the analyzer sends
    exactly one request, and each way the call can fail has its own
    message, whatever the underlying error was: a rejected fetch, a
    non-success status (with the status in the message), a body that is not
    JSON, and an answer text that [JSON.parse] refuses.  An answer text
    that parses is returned normalised. *)
Theorem analyzer_failures_are_typed (w : World) (text : string) :
  blank text = false ->
  key_missing env_GEMINI_API_KEY = false ->
  calls (analyze w text) = [analyze_request text] /\
  (forall e, fetch w (analyze_request text) = FetchRejects e ->
     result (analyze w text)
     = Throw (ErrorObj "Failed to connect to analysis service. Please try again later.")) /\
  (forall st j, fetch w (analyze_request text) = FetchResponse false st j ->
     result (analyze w text)
     = Throw (ErrorObj ("Analysis service error: " ++ JsString.of_Z st
                        ++ ". Please try again later."))) /\
  (forall st e, fetch w (analyze_request text) = FetchResponse true st (Throw e) ->
     result (analyze w text)
     = Throw (ErrorObj "Failed to parse analysis response. Please try again later.")) /\
  (forall st data s,
     fetch w (analyze_request text) = FetchResponse true st (Ret data) ->
     candidate_text data = JStr s ->
     JSON_parse (strip_code_fence (JsString.trim s)) = None ->
     result (analyze w text)
     = Throw (ErrorObj "Failed to parse analysis results. Please try again later.")) /\
  (forall st data s upstream,
     fetch w (analyze_request text) = FetchResponse true st (Ret data) ->
     candidate_text data = JStr s ->
     JSON_parse (strip_code_fence (JsString.trim s)) = Some upstream ->
     result (analyze w text) = fillSectionDefaults upstream).
Proof.
  intros Hb Hk.
  rewrite (analyze_with_key JSON_parse env_GEMINI_API_KEY w text Hb Hk).
  unfold calls, result; simpl fst; simpl snd.
  split; [reflexivity|].
  split; [intros e ->; reflexivity|].
  split; [intros st j ->; reflexivity|].
  split; [intros st e ->; reflexivity|].
  split.
  - intros st data s -> Hd Hp.
    unfold read_analysis, parse_analysis; simpl json_promise. cbv iota.
    rewrite Hd. simpl call_trim. cbv iota. rewrite Hp. reflexivity.
  - intros st data s upstream -> Hd Hp.
    unfold read_analysis, parse_analysis; simpl json_promise. cbv iota.
    rewrite Hd. simpl call_trim. cbv iota. rewrite Hp. reflexivity.
Qed.

End AnalyzerMore.

(* ================================================================== *)
(** * More runs *)

Module MoreRuns.

Import Sample Runs.
Local Open Scope Z_scope.

Definition dq : string := String (ascii_of_nat 34) "".

(** The text of a JSON object with the one field [id], 7. *)
Definition id_object_text : string := "{" ++ dq ++ "id" ++ dq ++ ":7}".

(** [JSON.parse] on that text. *)
Definition parse_id_object (s : string) : option json :=
  if String.eqb s id_object_text then Some (JObj [("id", JNum 7)]) else None.

(** The service says yes, then answers the analysis with [{"id":7}] in a
    [json] code fence. *)
Definition id_object_world : World :=
  world (answers "Yes.")
        (answers ("```json" ++ JsString.LF ++ id_object_text ++ JsString.LF ++ "```"))
        (Ret resume_text).

(** [JSON.parse] on the text [null]. *)
Definition parse_null (s : string) : option json :=
  if String.eqb s "null" then Some JNull else None.

(** The service says yes, then answers the analysis with [null]. *)
Definition null_world : World :=
  world (answers "yes") (answers "null") (Ret resume_text).

Definition garbage_world : World :=
  world (answers "yes") (answers "I cannot do that.") (Ret resume_text).

Definition one_entry : Cache :=
  [("sha256:other", JObj (analysis_literal 50 "k" "e" "s" "d" "f" ["one"]))].

End MoreRuns.

Import MoreRuns.

Lemma extracted_upload_witness :
  let run := process unavailable_world (Some cv_pdf) [] in
  status (answer run) = 200%Z /\
  cache_hit (cache_after run) (text_key resume_text) = Some (body (answer run)).
Proof.
  exact (extracted_upload_is_answered_and_cached text_key parse_braces key
           unavailable_world cv_pdf [] resume_text eq_refl).
Defined.


Lemma other_entries_witness :
  cache_hit (cache_after (process empty_object_world (Some cv_pdf) one_entry))
            "sha256:unrelated"
  = cache_hit one_entry "sha256:unrelated".
Proof.
  apply (other_entries_are_untouched text_key parse_braces key
           empty_object_world cv_pdf one_entry resume_text "sha256:unrelated");
    [reflexivity | discriminate].
Defined.

Lemma requests_sent_witness :
  sent (process empty_object_world (Some cv_pdf) []) = [] \/
  sent (process empty_object_world (Some cv_pdf) []) = [classify_request resume_text] \/
  sent (process empty_object_world (Some cv_pdf) [])
  = [classify_request resume_text; analyze_request resume_text].
Proof.
  exact (proj1 (requests_sent text_key parse_braces key
                  empty_object_world cv_pdf [] resume_text eq_refl)).
Defined.

Lemma no_credential_witness :
  let run := post_analyze text_key parse_braces None
               (later_world (Ret resume_text)) (Some cv_pdf) [] in
  sent run = [] /\
  all_scores (body (answer run)) 75 = true /\
  Js.prop (body (answer run)) "filename" = Some (JStr "cv.pdf").
Proof.
  destruct (no_credential_pipeline text_key parse_braces None
              (later_world (Ret resume_text)) cv_pdf [] resume_text
              eq_refl eq_refl eq_refl eq_refl)
    as (H1 & _ & H3 & _ & H5 & _).
  exact (conj H1 (conj H3 H5)).
Defined.

Lemma blank_text_witness :
  let run := process blank_world (Some cv_pdf) [] in
  status (answer run) = 200%Z /\
  ~ In (analyze_request "   ") (sent run).
Proof.
  destruct (blank_text_is_not_rejected text_key parse_braces key
              blank_world cv_pdf [] "   " eq_refl eq_refl eq_refl)
    as (H1 & _ & H3 & _).
  exact (conj H1 H3).
Defined.

Lemma override_witness :
  let run := post_analyze text_key parse_id_object key
               id_object_world (Some cv_pdf) [] in
  Js.prop (body (answer run)) "id" = Some (JNum 7) /\
  Js.prop (body (answer run)) "filename" = Some (JStr "cv.pdf").
Proof.
  pose proof (analysis_fields_override_provenance text_key parse_id_object key
                id_object_world cv_pdf [] resume_text _
                eq_refl eq_refl eq_refl eq_refl) as H.
  split; [exact (H "id") | exact (H "filename")].
Defined.

Lemma cache_shape_witness :
  let run := process empty_object_world (Some cv_pdf) [] in
  cache_ok (cache_after run) /\
  (status (answer run) = 200%Z -> answer_shape (body (answer run)) = true).
Proof.
  exact (cache_shape_is_kept text_key parse_braces key
           empty_object_world (Some cv_pdf) [] (cache_ok_empty)).
Defined.

Lemma idempotent_witness :
  exists out,
    fillSectionDefaults partial_upstream = Ret out /\
    fillSectionDefaults out = Ret out.
Proof.
  eexists. split; [reflexivity|].
  apply (fillSectionDefaults_idempotent partial_upstream). reflexivity.
Defined.

Lemma fenced_answer_witness :
  strip_code_fence ("```json" ++ JsString.LF ++ id_object_text ++ JsString.LF ++ "```")
  = id_object_text.
Proof.
  exact (fenced_answer_is_unwrapped id_object_text eq_refl).
Defined.


Lemma padding_witness :
  result (isResumeDocument key not_resume_world resume_text) = Ret false.
Proof.
  exact (classifier_ignores_padding key not_resume_world resume_text
           200 (gemini_reply " NO ") " " "NO" " "
           eq_refl eq_refl eq_refl eq_refl eq_refl).
Defined.

Lemma yes_witness :
  result (isResumeDocument key id_object_world resume_text) = Ret true.
Proof.
  exact (yes_in_any_case_is_accepted key id_object_world resume_text
           200 (gemini_reply "Yes.") "" "Yes" "."
           eq_refl eq_refl eq_refl eq_refl eq_refl).
Defined.


Lemma analyzer_failures_witness :
  calls (analyzeResumeWithGemini parse_braces key garbage_world resume_text)
  = [analyze_request resume_text] /\
  result (analyzeResumeWithGemini parse_braces key garbage_world resume_text)
  = Throw (ErrorObj "Failed to parse analysis results. Please try again later.").
Proof.
  destruct (analyzer_failures_are_typed parse_braces key garbage_world resume_text
              eq_refl eq_refl) as (H1 & _ & _ & _ & H5 & _).
  split; [exact H1|].
  exact (H5 200%Z (gemini_reply "I cannot do that.") "I cannot do that."
            eq_refl eq_refl eq_refl).
Defined.


Lemma demo_witness :
  get_analysis (with_store (fun _ => Throw (ErrorObj "connection refused"))) "42"
  = {| status := 200;
       body := demo_analysis
                 (with_store (fun _ => Throw (ErrorObj "connection refused"))) 42 |}.
Proof.
  destruct (get_analysis_degrades_to_demo
              (with_store (fun _ => Throw (ErrorObj "connection refused"))) "42")
    as (_ & H).
  exact (proj1 (H 42%Z (ErrorObj "connection refused") eq_refl eq_refl)).
Defined.

(** C5, refuted as stated: the answer [null] parses, and normalising the
    parsed result throws instead of filling in the defaults; the route
    answers such an upload with the technical fallback. *)
Lemma null_result_is_not_normalised :
  parse_analysis parse_null
    {| ok := true; http_status := 200; json_promise := Ret (gemini_reply "null") |}
  = Ret JNull /\
  fillSectionDefaults JNull
  = Throw (ErrorObj "Cannot read properties of null (reading 'feedback')") /\
  ~ (exists out, fillSectionDefaults JNull = Ret out) /\
  answer (post_analyze text_key parse_null key null_world (Some cv_pdf) [])
  = {| status := 200; body := with_provenance null_world cv_pdf technical_fallback |}.
Proof.
  split; [reflexivity|]. split; [reflexivity|].
  split; [intros (out & H); discriminate H | reflexivity].
Qed.
